(** * pun_sensor: the sensor platform ([custom_components/pun_sensor/sensor.py])

    A shallow embedding of the three sensor entities of the PUN integration and
    of the platform set-up, followed by the properties of their update,
    restore and accessor code.

    Python objects that are mutated in place are modelled by explicit state:
    an entity method is a computation over the entity's attributes that may
    raise (a failed dictionary subscript) and that records the calls it makes
    into the host platform.  The coordinator is a shared object: entities hold
    a reference to it and read its current attributes through a heap. *)

From Stdlib Require Import ZArith String.
From Corelib Require Import PrimFloat.
From stdpp Require Import base gmap strings list.

Open Scope string_scope.

(** ** Python values *)

(** A Python value other than [None], as far as this module stores or
    restores one: the coordinator's prices are [float]s, the constructors
    store the [int] 0, names are [str], and restored JSON may hold any of
    them.  An attribute the source annotates without [| None]
    ([native_value -> float], [name -> str]) has type [PyValue]; where the
    source handles [None] (a JSON entry, [dict.get], [fascia_corrente]) the
    type is an [option], with Python's [None] as Rocq's [None]. *)
Inductive PyValue : Type :=
  | VInt (z : Z)
  | VFloat (x : float)
  | VStr (s : string)
  | VBool (b : bool).

(** Python's [len] on a list. *)
Definition len {A} (l : list A) : Z := Z.of_nat (length l).

(** Truth value of a Python [int]. *)
Definition int_bool (a : Z) : bool := negb (a =? 0)%Z.

(** [a and b] on two already evaluated [int]s: [a] when [a] is falsy,
    else [b]. *)
Definition int_and (a b : Z) : Z := if int_bool a then b else a.

(** ** Computations: state, exceptions and calls into the host *)

Inductive PyException : Type :=
  | KeyError.

Inductive Outcome (A : Type) : Type :=
  | Ok (a : A)
  | Raise (e : PyException).
Arguments Ok {A} a.
Arguments Raise {A} e.

(** A computation over a mutable state [Σ]: its outcome, the state it leaves
    (also when it raises) and the calls of kind [E] it made, in order. *)
Definition M (E Σ A : Type) : Type := Σ → Outcome A * Σ * list E.

Definition ret {E Σ A} (a : A) : M E Σ A := λ σ, (Ok a, σ, []).

Definition bind {E Σ A B} (m : M E Σ A) (k : A → M E Σ B) : M E Σ B :=
  λ σ, match m σ with
       | (Ok a, σ1, t1) =>
           match k a σ1 with
           | (r, σ2, t2) => (r, σ2, (t1 ++ t2)%list)
           end
       | (Raise e, σ1, t1) => (Raise e, σ1, t1)
       end.

Definition raise {E Σ A} (e : PyException) : M E Σ A := λ σ, (Raise e, σ, []).

Definition gets {E Σ A} (f : Σ → A) : M E Σ A := λ σ, (Ok (f σ), σ, []).

Definition modify {E Σ} (f : Σ → Σ) : M E Σ unit := λ σ, (Ok tt, f σ, []).

Definition call {E Σ} (e : E) : M E Σ unit := λ σ, (Ok tt, σ, [e]).

(** The three components of a run. *)
Definition outcome {E Σ A} (m : M E Σ A) (σ : Σ) : Outcome A := (m σ).1.1.
Definition exec {E Σ A} (m : M E Σ A) (σ : Σ) : Σ := (m σ).1.2.
Definition calls {E Σ A} (m : M E Σ A) (σ : Σ) : list E := (m σ).2.

Notation "x <- c1 ;; c2" := (bind c1 (λ x, c2))
  (at level 100, c1 at next level, right associativity).
Notation "c1 ;; c2" := (bind c1 (λ _, c2))
  (at level 100, right associativity).

(** [d[k]]: the entry, or [KeyError]. *)
Definition getitem {E Σ} `{Countable K} {V} (d : gmap K V) (k : K) : M E Σ V :=
  match d !! k with
  | Some v => ret v
  | None => raise KeyError
  end.

(** [d.get(k)] on a dictionary of optional values: [None] when the key is
    missing and when its entry is [None]. *)
Definition dict_get `{Countable K} {V} (d : gmap K (option V)) (k : K) : option V :=
  match d !! k with
  | Some o => o
  | None => None
  end.

(** [a and b] on [int] operands: [b] is evaluated only when [a] is truthy. *)
Definition and_ {E Σ} (a b : M E Σ Z) : M E Σ Z :=
  x <- a ;;
  if int_bool x then b else ret x.

(** ** The band enumeration and the coordinator *)

(** The members of [interfaces.Fascia] that [PUNSensorEntity.__init__]
    matches on. *)
Inductive Fascia : Type := MONO | F1 | F2 | F3 | F23.

#[global] Instance Fascia_eq_dec : EqDecision Fascia.
Proof. solve_decision. Defined.

Definition Fascia_to_nat (f : Fascia) : nat :=
  match f with MONO => 0 | F1 => 1 | F2 => 2 | F3 => 3 | F23 => 4 end.

Definition Fascia_of_nat (n : nat) : option Fascia :=
  match n with
  | 0 => Some MONO | 1 => Some F1 | 2 => Some F2 | 3 => Some F3 | 4 => Some F23
  | _ => None
  end.

#[global] Instance Fascia_countable : Countable Fascia.
Proof.
  refine (inj_countable Fascia_to_nat Fascia_of_nat _).
  intros []; reflexivity.
Defined.

(** [PunData]: the raw samples of each band, [pun: dict[Fascia, list[float]]]. *)
Record PunData : Type := { pun : gmap Fascia (list float) }.

(** [PunValues]: the value computed for each band, [value: dict[Fascia, float]]. *)
Record PunValues : Type := { value : gmap Fascia float }.

(** The attributes of the coordinator that the sensors read. *)
Record PUNDataUpdateCoordinator : Type := {
  pun_data : PunData;
  pun_values : PunValues;
  fascia_corrente : option Fascia;
  fascia_successiva : option Fascia
}.

(** A reference to a coordinator object, and the heap giving the current
    attributes of each. *)
Definition ref : Type := positive.
Definition Heap : Type := ref → PUNDataUpdateCoordinator.

(** What this module takes from declarations that live outside it:
    [interfaces.py] ([Fascia]'s values, the keys of a fresh
    [PunValues().value] in iteration order, distinct as dictionary keys are),
    [const.py] ([DOMAIN]) and the running host ([HA_VERSION] and
    AwesomeVersion's [>=]). *)
Class Declarations : Type := {
  Fascia_value : Fascia → string;
  PunValues_keys : list Fascia;
  PunValues_keys_NoDup : NoDup PunValues_keys;
  DOMAIN : string;
  HA_VERSION : string;
  AwesomeVersion_ge : string → string → bool
}.

(** Constants of the host platform ([homeassistant.const] and
    [homeassistant.components.sensor]). *)
Definition CURRENCY_EURO : string := "€".
Definition KILO_WATT_HOUR : string := "kWh".
Definition ENTITY_ID_FORMAT (name : string) : string := "sensor." ++ name.

Inductive SensorStateClass : Type := MEASUREMENT | TOTAL | TOTAL_INCREASING.
Inductive SensorDeviceClass : Type := ENUM.

(** The call an entity makes to publish its state. *)
Inductive HaCall : Type := async_write_ha_state.

(** [RestoredExtraData]: a JSON dictionary; [None] entries are JSON null. *)
Record RestoredExtraData : Type := { as_dict : gmap string (option PyValue) }.

(** [CommonSettings], the class holding the module's global flag. *)
Record CommonSettings : Type := { has_suggested_display_precision : bool }.

(** ** [PUNSensorEntity]: the monthly average price of one band *)

Module PUNSensorEntity.

Record t : Type := {
  coordinator : ref;
  fascia : Fascia;
  entity_id : option string;
  _attr_unique_id : option string;
  _attr_has_entity_name : bool;
  _attr_state_class : SensorStateClass;
  _attr_suggested_display_precision : Z;
  _available : bool;
  _native_value : PyValue
}.

(** [self._available = b] and [self._native_value = v]. *)
Definition set_available (b : bool) (self : t) : t :=
  {| coordinator := coordinator self;
     fascia := fascia self;
     entity_id := entity_id self;
     _attr_unique_id := _attr_unique_id self;
     _attr_has_entity_name := _attr_has_entity_name self;
     _attr_state_class := _attr_state_class self;
     _attr_suggested_display_precision := _attr_suggested_display_precision self;
     _available := b;
     _native_value := _native_value self |}.

Definition set_native_value (v : PyValue) (self : t) : t :=
  {| coordinator := coordinator self;
     fascia := fascia self;
     entity_id := entity_id self;
     _attr_unique_id := _attr_unique_id self;
     _attr_has_entity_name := _attr_has_entity_name self;
     _attr_state_class := _attr_state_class self;
     _attr_suggested_display_precision := _attr_suggested_display_precision self;
     _available := _available self;
     _native_value := v |}.

(** The constructor; the arm [case _] of its [match] has no member of
    [Fascia] left to take. *)
Definition __init__ (coordinator : ref) (fascia : Fascia) : t :=
  let entity_id :=
    match fascia with
    | MONO => Some (ENTITY_ID_FORMAT "pun_mono_orario")
    | F1 => Some (ENTITY_ID_FORMAT "pun_fascia_f1")
    | F2 => Some (ENTITY_ID_FORMAT "pun_fascia_f2")
    | F3 => Some (ENTITY_ID_FORMAT "pun_fascia_f3")
    | F23 => Some (ENTITY_ID_FORMAT "pun_fascia_f23")
    end in
  {| coordinator := coordinator;
     fascia := fascia;
     entity_id := entity_id;
     _attr_unique_id := entity_id;
     _attr_has_entity_name := true;
     _attr_state_class := MEASUREMENT;
     _attr_suggested_display_precision := 6;
     _available := false;
     _native_value := VInt 0 |}.

(** [len(self.coordinator.pun_data.pun[f])] *)
Definition len_pun (h : Heap) (f : Fascia) : M HaCall t Z :=
  c <- gets coordinator ;;
  l <- getitem (pun (pun_data (h c))) f ;;
  ret (len l).

(** [self._native_value = self.coordinator.pun_values.value[self.fascia]] *)
Definition store_value (h : Heap) : M HaCall t unit :=
  c <- gets coordinator ;;
  f <- gets fascia ;;
  v <- getitem (value (pun_values (h c))) f ;;
  modify (set_native_value (VFloat v)).

Definition _handle_coordinator_update (h : Heap) : M HaCall t unit :=
  (f <- gets fascia ;;
   if bool_decide (f ≠ F23) then
     f <- gets fascia ;;
     n <- len_pun h f ;;
     if (n >? 0)%Z then
       modify (set_available true) ;;
       store_value h
     else
       modify (set_available false)
   else
     n <- and_ (len_pun h F2) (len_pun h F3) ;;
     if (n >? 0)%Z then
       modify (set_available true) ;;
       store_value h
     else
       modify (set_available false)) ;;
  call async_write_ha_state.

Definition extra_restore_state_data (self : t) : RestoredExtraData :=
  {| as_dict :=
       {[ "native_value" :=
            if _available self then Some (_native_value self) else None ]} |}.

(** [async_added_to_hass], given what [async_get_last_extra_data] returns;
    the inherited [async_added_to_hass] it awaits first touches none of the
    attributes above. *)
Definition async_added_to_hass (last_extra_data : option RestoredExtraData)
  : M HaCall t unit :=
  match last_extra_data with
  | Some old_data =>
      match dict_get (as_dict old_data) "native_value" with
      | Some old_native_value =>
          modify (set_available true) ;;
          modify (set_native_value old_native_value)
      | None => ret tt
      end
  | None => ret tt
  end.

Definition should_poll (self : t) : bool := false.

Definition available (self : t) : bool := _available self.

Definition native_unit_of_measurement (self : t) : string :=
  CURRENCY_EURO ++ "/" ++ KILO_WATT_HOUR.

End PUNSensorEntity.

(** Truth value of a [Fascia] member: members of an [Enum] are truthy. *)
Definition Fascia_bool (f : Fascia) : bool := true.

(** ** [FasciaPUNSensorEntity]: the name of the current band *)

Module FasciaPUNSensorEntity.
Section WithDeclarations.
Context `{!Declarations}.

Record t : Type := {
  coordinator : ref;
  entity_id : string;
  _attr_unique_id : string;
  _attr_has_entity_name : bool
}.

Definition __init__ (coordinator : ref) : t :=
  {| coordinator := coordinator;
     entity_id := ENTITY_ID_FORMAT "pun_fascia_corrente";
     _attr_unique_id := ENTITY_ID_FORMAT "pun_fascia_corrente";
     _attr_has_entity_name := true |}.

Definition _handle_coordinator_update (h : Heap) : M HaCall t unit :=
  call async_write_ha_state.

Definition should_poll (self : t) : bool := false.

(** [self.coordinator.fascia_corrente is not None] *)
Definition available (h : Heap) (self : t) : bool :=
  match fascia_corrente (h (coordinator self)) with
  | Some _ => true
  | None => false
  end.

Definition device_class (self : t) : option SensorDeviceClass := Some ENUM.


(** [if not fascia_corrente: return None], then [fascia_corrente.value]. *)
Definition native_value (h : Heap) (self : t) : option string :=
  match fascia_corrente (h (coordinator self)) with
  | None => None
  | Some f => if negb (Fascia_bool f) then None else Some (Fascia_value f)
  end.

End WithDeclarations.
End FasciaPUNSensorEntity.

(** ** [PrezzoFasciaPUNSensorEntity]: the price of the current band *)

Module PrezzoFasciaPUNSensorEntity.
Section WithDeclarations.
Context `{!Declarations}.

Record t : Type := {
  coordinator : ref;
  entity_id : string;
  _attr_unique_id : string;
  _attr_has_entity_name : bool;
  _attr_state_class : SensorStateClass;
  _attr_suggested_display_precision : Z;
  _available : bool;
  _native_value : PyValue;
  _friendly_name : PyValue
}.

Definition set_available (b : bool) (self : t) : t :=
  {| coordinator := coordinator self;
     entity_id := entity_id self;
     _attr_unique_id := _attr_unique_id self;
     _attr_has_entity_name := _attr_has_entity_name self;
     _attr_state_class := _attr_state_class self;
     _attr_suggested_display_precision := _attr_suggested_display_precision self;
     _available := b;
     _native_value := _native_value self;
     _friendly_name := _friendly_name self |}.

Definition set_native_value (v : PyValue) (self : t) : t :=
  {| coordinator := coordinator self;
     entity_id := entity_id self;
     _attr_unique_id := _attr_unique_id self;
     _attr_has_entity_name := _attr_has_entity_name self;
     _attr_state_class := _attr_state_class self;
     _attr_suggested_display_precision := _attr_suggested_display_precision self;
     _available := _available self;
     _native_value := v;
     _friendly_name := _friendly_name self |}.

Definition set_friendly_name (v : PyValue) (self : t) : t :=
  {| coordinator := coordinator self;
     entity_id := entity_id self;
     _attr_unique_id := _attr_unique_id self;
     _attr_has_entity_name := _attr_has_entity_name self;
     _attr_state_class := _attr_state_class self;
     _attr_suggested_display_precision := _attr_suggested_display_precision self;
     _available := _available self;
     _native_value := _native_value self;
     _friendly_name := v |}.

Definition __init__ (coordinator : ref) : t :=
  {| coordinator := coordinator;
     entity_id := ENTITY_ID_FORMAT "pun_prezzo_fascia_corrente";
     _attr_unique_id := ENTITY_ID_FORMAT "pun_prezzo_fascia_corrente";
     _attr_has_entity_name := true;
     _attr_state_class := MEASUREMENT;
     _attr_suggested_display_precision := 6;
     _available := false;
     _native_value := VInt 0;
     _friendly_name := VStr "Prezzo fascia corrente" |}.

(** The coordinator is not written while the handler runs, so each
    [self.coordinator.fascia_corrente] of the first branch reads the band
    found by the test. *)
Definition _handle_coordinator_update (h : Heap) : M HaCall t unit :=
  (c <- gets coordinator ;;
   match fascia_corrente (h c) with
   | Some fc =>
       l <- getitem (pun (pun_data (h c))) fc ;;
       modify (set_available (len l >? 0)%Z) ;;
       v <- getitem (value (pun_values (h c))) fc ;;
       modify (set_native_value (VFloat v)) ;;
       modify (set_friendly_name
                 (VStr ("Prezzo fascia corrente (" ++ Fascia_value fc ++ ")")))
   | None =>
       modify (set_available false) ;;
       modify (set_native_value (VInt 0)) ;;
       modify (set_friendly_name (VStr "Prezzo fascia corrente"))
   end) ;;
  call async_write_ha_state.

Definition extra_restore_state_data (self : t) : RestoredExtraData :=
  {| as_dict :=
       <[ "native_value" :=
            if _available self then Some (_native_value self) else None ]>
       {[ "friendly_name" :=
            if _available self then Some (_friendly_name self) else None ]} |}.

(** [async_added_to_hass], given what [async_get_last_extra_data] returns;
    the inherited [async_added_to_hass] it awaits first touches none of the
    attributes above. *)
Definition async_added_to_hass (last_extra_data : option RestoredExtraData)
  : M HaCall t unit :=
  match last_extra_data with
  | Some old_data =>
      match dict_get (as_dict old_data) "native_value" with
      | Some old_native_value =>
          modify (set_available true) ;;
          modify (set_native_value old_native_value)
      | None => ret tt
      end ;;
      match dict_get (as_dict old_data) "friendly_name" with
      | Some old_friendly_name =>
          modify (set_friendly_name old_friendly_name)
      | None => ret tt
      end
  | None => ret tt
  end.

Definition should_poll (self : t) : bool := false.

Definition available (self : t) : bool := _available self.

Definition native_unit_of_measurement (self : t) : string :=
  CURRENCY_EURO ++ "/" ++ KILO_WATT_HOUR.

Definition name (self : t) : PyValue := _friendly_name self.

End WithDeclarations.
End PrezzoFasciaPUNSensorEntity.

(** ** Platform set-up *)

(** An entity of this platform, as the list given to the host holds them. *)
Inductive SensorEntity : Type :=
  | PUNSensor (e : PUNSensorEntity.t)
  | FasciaPUNSensor (e : FasciaPUNSensorEntity.t)
  | PrezzoFasciaPUNSensor (e : PrezzoFasciaPUNSensorEntity.t).

(** The coordinator an entity is bound to. *)
Definition entity_coordinator (e : SensorEntity) : ref :=
  match e with
  | PUNSensor e => PUNSensorEntity.coordinator e
  | FasciaPUNSensor e => FasciaPUNSensorEntity.coordinator e
  | PrezzoFasciaPUNSensor e => PrezzoFasciaPUNSensorEntity.coordinator e
  end.

(** [hass.data[DOMAIN]] maps the id of a config entry to its coordinator. *)
Record HomeAssistant : Type := { data : gmap string (gmap string ref) }.

Record ConfigEntry : Type := { entry_id : string }.

(** The call of the [async_add_entities] callback. *)
Inductive SetupCall : Type :=
  | async_add_entities (entities : list SensorEntity) (update_before_add : bool).

Section Setup.
Context `{!Declarations}.

(** The state is the module's [CommonSettings]; [discovery_info] is not
    used by the body. *)
Definition async_setup_entry (hass : HomeAssistant) (config : ConfigEntry)
  : M SetupCall CommonSettings unit :=
  by_domain <- getitem (data hass) DOMAIN ;;
  coordinator <- getitem by_domain (entry_id config) ;;
  modify (λ _, {| has_suggested_display_precision :=
                    AwesomeVersion_ge HA_VERSION "2023.3.0" |}) ;;
  let entities : list SensorEntity := [] in
  let entities :=
    (entities ++
     map (λ fascia, PUNSensor (PUNSensorEntity.__init__ coordinator fascia))
         PunValues_keys)%list in
  let entities :=
    (entities ++ [FasciaPUNSensor (FasciaPUNSensorEntity.__init__ coordinator)])%list in
  let entities :=
    (entities ++
     [PrezzoFasciaPUNSensor (PrezzoFasciaPUNSensorEntity.__init__ coordinator)])%list in
  call (async_add_entities entities false).

End Setup.

(** Observers of an entity list: [isinstance] tests, and the number of
    entities passing one. *)
Definition is_PUNSensor_for (f : Fascia) (e : SensorEntity) : bool :=
  match e with
  | PUNSensor e => bool_decide (PUNSensorEntity.fascia e = f)
  | _ => false
  end.

Definition is_FasciaPUNSensor (e : SensorEntity) : bool :=
  match e with FasciaPUNSensor _ => true | _ => false end.

Definition is_PrezzoFasciaPUNSensor (e : SensorEntity) : bool :=
  match e with PrezzoFasciaPUNSensor _ => true | _ => false end.

Definition count_entities (p : SensorEntity → bool) (l : list SensorEntity) : nat :=
  length (List.filter p l).

(** ** A sample installation

    Concrete declarations, a heap and entities on which the statements below
    are instantiated. *)

Definition sample_declarations : Declarations :=
  {| Fascia_value f :=
       match f with
       | MONO => "MONO" | F1 => "F1" | F2 => "F2" | F3 => "F3" | F23 => "F23"
       end;
     PunValues_keys := [MONO; F1; F2; F3; F23];
     PunValues_keys_NoDup := ltac:(apply (bool_decide_unpack _); vm_compute; exact I);
     DOMAIN := "pun_sensor";
     HA_VERSION := "2024.1.0";
     AwesomeVersion_ge a b := true |}.

(** A coordinator in band F1 with samples for MONO, F1 and F2 and none for F3. *)
Definition sample_coordinator : PUNDataUpdateCoordinator :=
  {| pun_data :=
       {| pun := {[ MONO := [0.125%float; 0.25%float];
                    F1 := [0.125%float];
                    F2 := [0.25%float];
                    F3 := [];
                    F23 := [] ]} |};
     pun_values :=
       {| value := {[ MONO := 0.1875%float;
                      F1 := 0.125%float;
                      F2 := 0.25%float;
                      F3 := 0%float;
                      F23 := 0%float ]} |};
     fascia_corrente := Some F1;
     fascia_successiva := Some F2 |}.

(** A coordinator that has not determined the current band yet. *)
Definition idle_coordinator : PUNDataUpdateCoordinator :=
  {| pun_data := {| pun := {[ MONO := []; F1 := []; F2 := []; F3 := []; F23 := [] ]} |};
     pun_values :=
       {| value := {[ MONO := 0%float; F1 := 0%float; F2 := 0%float;
                      F3 := 0%float; F23 := 0%float ]} |};
     fascia_corrente := None;
     fascia_successiva := None |}.

(** Reference 1 is the sample coordinator, every other one the idle one. *)
Definition sample_heap : Heap :=
  λ r, if (r =? 1)%positive then sample_coordinator else idle_coordinator.

Definition sample_hass : HomeAssistant :=
  {| data := {[ "pun_sensor" := {[ "entry-1" := 1%positive ]} ]} |}.

Definition sample_config : ConfigEntry := {| entry_id := "entry-1" |}.

(** The unique id an entity registers under ([_attr_unique_id]). *)
Definition entity_unique_id (e : SensorEntity) : option string :=
  match e with
  | PUNSensor e => PUNSensorEntity._attr_unique_id e
  | FasciaPUNSensor e => Some (FasciaPUNSensorEntity._attr_unique_id e)
  | PrezzoFasciaPUNSensor e => Some (PrezzoFasciaPUNSensorEntity._attr_unique_id e)
  end.

(** A coordinator in band F1 holding samples for F1, F2 and F3 whose computed
    values are missing, and one holding nothing at all although it reports
    a current band. *)
Definition unvalued_coordinator : PUNDataUpdateCoordinator :=
  {| pun_data :=
       {| pun := {[ F1 := [0.125%float]; F2 := [0.25%float]; F3 := [0.5%float] ]} |};
     pun_values := {| value := ∅ |};
     fascia_corrente := Some F1;
     fascia_successiva := Some F2 |}.

Definition blank_coordinator : PUNDataUpdateCoordinator :=
  {| pun_data := {| pun := ∅ |};
     pun_values := {| value := ∅ |};
     fascia_corrente := Some F1;
     fascia_successiva := None |}.

(** Reference 1 is the unvalued coordinator, every other one the blank one. *)
Definition faulty_heap : Heap :=
  λ r, if (r =? 1)%positive then unvalued_coordinator else blank_coordinator.

(** * Properties *)

(** ** Equations of the computation monad *)

Section MonadEquations.
Context {E Σ : Type}.

Lemma bind_ret {A B} (a : A) (k : A → M E Σ B) (σ : Σ) :
  bind (ret a) k σ = k a σ.
Proof. unfold bind, ret. by destruct (k a σ) as [[r σ2] t2]. Qed.

Lemma bind_raise {A B} (e : PyException) (k : A → M E Σ B) (σ : Σ) :
  bind (raise e) k σ = (Raise e, σ, []).
Proof. reflexivity. Qed.

Lemma bind_gets {A B} (f : Σ → A) (k : A → M E Σ B) (σ : Σ) :
  bind (gets f) k σ = k (f σ) σ.
Proof. unfold bind, gets. by destruct (k (f σ) σ) as [[r σ2] t2]. Qed.

Lemma bind_modify {B} (f : Σ → Σ) (k : unit → M E Σ B) (σ : Σ) :
  bind (modify f) k σ = k tt (f σ).
Proof. unfold bind, modify. by destruct (k tt (f σ)) as [[r σ2] t2]. Qed.

Lemma bind_assoc {A B C} (m : M E Σ A) (k1 : A → M E Σ B) (k2 : B → M E Σ C)
    (σ : Σ) :
  bind (bind m k1) k2 σ = bind m (λ x, bind (k1 x) k2) σ.
Proof.
  unfold bind. destruct (m σ) as [[[a|e] σ1] t1]; [|done].
  destruct (k1 a σ1) as [[[b|e] σ2] t2]; [|done].
  destruct (k2 b σ2) as [[r σ3] t3]. by rewrite (assoc_L (++)).
Qed.

Lemma bind_getitem_Some `{Countable K} {V B} (d : gmap K V) (i : K) (v : V)
    (k : V → M E Σ B) (σ : Σ) :
  d !! i = Some v → bind (getitem d i) k σ = k v σ.
Proof. intros Hd. unfold getitem. rewrite Hd. apply bind_ret. Qed.

Lemma bind_getitem_None `{Countable K} {V B} (d : gmap K V) (i : K)
    (k : V → M E Σ B) (σ : Σ) :
  d !! i = None → bind (getitem d i) k σ = (Raise KeyError, σ, []).
Proof. intros Hd. unfold getitem. rewrite Hd. apply bind_raise. Qed.

End MonadEquations.

Lemma len_gtb_0 {A} (l : list A) :
  (len l >? 0)%Z = if l is [] then false else true.
Proof. by destruct l. Qed.

Lemma int_and_pos (a b : Z) :
  (0 ≤ a)%Z → (int_and a b >? 0)%Z = (a >? 0)%Z && (b >? 0)%Z.
Proof.
  intros Ha. unfold int_and, int_bool.
  destruct (Z.eqb_spec a 0) as [->|Hne]; cbn [negb]; [done|].
  replace (a >? 0)%Z with true; [done|]. symmetry. apply Z.gtb_lt. lia.
Qed.

Lemma int_and_len_gtb {A B} (l2 : list A) (l3 : list B) :
  (int_and (len l2) (len l3) >? 0)%Z
  = (if l2 is [] then false else true) && (if l3 is [] then false else true).
Proof. rewrite int_and_pos, !len_gtb_0; [done|]. unfold len. lia. Qed.

(** Rewriting a run down to its first stuck subscript or test. *)
Ltac mnorm :=
  repeat first
    [ rewrite bind_assoc | rewrite bind_gets | rewrite bind_modify
    | rewrite bind_ret ].

(** ** [PUNSensorEntity]: the update handler, path by path *)

Section PUNSensorUpdate.
Import PUNSensorEntity.
Variable h : Heap.
Variable self : t.

Local Abbreviation samples_of f := (pun (pun_data (h (coordinator self))) !! f).
Local Abbreviation value_of f := (value (pun_values (h (coordinator self))) !! f).

Lemma len_pun_Some {B} (f : Fascia) (l : list float) (k : Z → M HaCall t B) σ :
  pun (pun_data (h (coordinator σ))) !! f = Some l →
  bind (len_pun h f) k σ = k (len l) σ.
Proof.
  intros Hl. unfold len_pun. mnorm.
  rewrite (bind_getitem_Some _ _ _ _ _ Hl). by mnorm.
Qed.

(** With both operands defined, the short-circuit [and] is [int_and]. *)
Lemma and_len_pun {B} (l2 l3 : list float) (k : Z → M HaCall t B) σ :
  pun (pun_data (h (coordinator σ))) !! F2 = Some l2 →
  pun (pun_data (h (coordinator σ))) !! F3 = Some l3 →
  bind (and_ (len_pun h F2) (len_pun h F3)) k σ = k (int_and (len l2) (len l3)) σ.
Proof.
  intros H2 H3. unfold and_. mnorm. rewrite (len_pun_Some _ _ _ _ H2).
  unfold int_and. destruct (int_bool (len l2)).
  - by rewrite (len_pun_Some _ _ _ _ H3).
  - by mnorm.
Qed.

(** The second operand is not evaluated when the first list is empty. *)
Lemma and_len_pun_short {B} (k : Z → M HaCall t B) σ :
  pun (pun_data (h (coordinator σ))) !! F2 = Some [] →
  bind (and_ (len_pun h F2) (len_pun h F3)) k σ = k 0%Z σ.
Proof.
  intros H2. unfold and_. mnorm. rewrite (len_pun_Some _ _ _ _ H2).
  change (int_bool (len (@nil float))) with false. cbv iota. by mnorm.
Qed.

Lemma store_value_Some (v : float) (k : unit → M HaCall t unit) σ :
  value (pun_values (h (coordinator σ))) !! fascia σ = Some v →
  bind (store_value h) k σ = k tt (set_native_value (VFloat v) σ).
Proof.
  intros Hv. unfold store_value. mnorm.
  rewrite (bind_getitem_Some _ _ _ _ _ Hv). by mnorm.
Qed.

Lemma store_value_None (k : unit → M HaCall t unit) σ :
  value (pun_values (h (coordinator σ))) !! fascia σ = None →
  bind (store_value h) k σ = (Raise KeyError, σ, []).
Proof.
  intros Hv. unfold store_value. mnorm.
  by rewrite (bind_getitem_None _ _ _ _ Hv).
Qed.

Lemma update_band_data x l v :
  fascia self ≠ F23 →
  samples_of (fascia self) = Some (x :: l) →
  value_of (fascia self) = Some v →
  _handle_coordinator_update h self
  = (Ok tt, set_native_value (VFloat v) (set_available true self),
     [async_write_ha_state]).
Proof.
  intros Hf Hl Hv. unfold _handle_coordinator_update. mnorm.
  rewrite bool_decide_true by done. mnorm.
  rewrite (len_pun_Some _ _ _ _ Hl), len_gtb_0. mnorm.
  by rewrite (store_value_Some v).
Qed.

Lemma update_band_data_no_value x l :
  fascia self ≠ F23 →
  samples_of (fascia self) = Some (x :: l) →
  value_of (fascia self) = None →
  _handle_coordinator_update h self
  = (Raise KeyError, set_available true self, []).
Proof.
  intros Hf Hl Hv. unfold _handle_coordinator_update. mnorm.
  rewrite bool_decide_true by done. mnorm.
  rewrite (len_pun_Some _ _ _ _ Hl), len_gtb_0. mnorm.
  by rewrite store_value_None.
Qed.

Lemma update_band_empty :
  fascia self ≠ F23 →
  samples_of (fascia self) = Some [] →
  _handle_coordinator_update h self
  = (Ok tt, set_available false self, [async_write_ha_state]).
Proof.
  intros Hf Hl. unfold _handle_coordinator_update. mnorm.
  rewrite bool_decide_true by done. mnorm.
  by rewrite (len_pun_Some _ _ _ _ Hl), len_gtb_0.
Qed.

Lemma update_F23_data x2 l2 x3 l3 v :
  fascia self = F23 →
  samples_of F2 = Some (x2 :: l2) →
  samples_of F3 = Some (x3 :: l3) →
  value_of F23 = Some v →
  _handle_coordinator_update h self
  = (Ok tt, set_native_value (VFloat v) (set_available true self),
     [async_write_ha_state]).
Proof.
  intros Hf H2 H3 Hv. unfold _handle_coordinator_update. mnorm.
  rewrite Hf, bool_decide_false by (by intros ?). mnorm.
  rewrite (and_len_pun _ _ _ _ H2 H3), int_and_len_gtb. cbn [andb]. mnorm.
  rewrite (store_value_Some v); [done|]. cbn. by rewrite Hf.
Qed.

Lemma update_F23_data_no_value x2 l2 x3 l3 :
  fascia self = F23 →
  samples_of F2 = Some (x2 :: l2) →
  samples_of F3 = Some (x3 :: l3) →
  value_of F23 = None →
  _handle_coordinator_update h self
  = (Raise KeyError, set_available true self, []).
Proof.
  intros Hf H2 H3 Hv. unfold _handle_coordinator_update. mnorm.
  rewrite Hf, bool_decide_false by (by intros ?). mnorm.
  rewrite (and_len_pun _ _ _ _ H2 H3), int_and_len_gtb. cbn [andb]. mnorm.
  rewrite store_value_None; [done|]. cbn. by rewrite Hf.
Qed.

Lemma update_F23_no_F2 :
  fascia self = F23 →
  samples_of F2 = Some [] →
  _handle_coordinator_update h self
  = (Ok tt, set_available false self, [async_write_ha_state]).
Proof.
  intros Hf H2. unfold _handle_coordinator_update. mnorm.
  rewrite Hf, bool_decide_false by (by intros ?). mnorm.
  by rewrite (and_len_pun_short _ _ H2).
Qed.

Lemma update_F23_no_F3 x2 l2 :
  fascia self = F23 →
  samples_of F2 = Some (x2 :: l2) →
  samples_of F3 = Some [] →
  _handle_coordinator_update h self
  = (Ok tt, set_available false self, [async_write_ha_state]).
Proof.
  intros Hf H2 H3. unfold _handle_coordinator_update. mnorm.
  rewrite Hf, bool_decide_false by (by intros ?). mnorm.
  by rewrite (and_len_pun _ _ _ _ H2 H3), int_and_len_gtb.
Qed.

End PUNSensorUpdate.

(** ** [PUNSensorEntity]: what an update does to the sensor *)

Section PUNSensorClaims.
Import PUNSensorEntity.

(** C1. For a band other than F23 whose raw sample list the coordinator holds:
    when the list is non-empty the update makes the sensor available and
    stores the coordinator's computed value of that band as native value (and
    publishes the state); when the list is empty the update makes the sensor
    unavailable. *)
Theorem PUNSensorEntity_update_band (h : Heap) (self : t) (samples : list float) :
  fascia self ≠ F23 →
  pun (pun_data (h (coordinator self))) !! fascia self = Some samples →
  (samples ≠ [] →
   ∀ v, value (pun_values (h (coordinator self))) !! fascia self = Some v →
     outcome (_handle_coordinator_update h) self = Ok tt
     ∧ available (exec (_handle_coordinator_update h) self) = true
     ∧ _native_value (exec (_handle_coordinator_update h) self) = VFloat v
     ∧ calls (_handle_coordinator_update h) self = [async_write_ha_state])
  ∧ (samples = [] →
     outcome (_handle_coordinator_update h) self = Ok tt
     ∧ available (exec (_handle_coordinator_update h) self) = false
     ∧ calls (_handle_coordinator_update h) self = [async_write_ha_state]).
Proof.
  intros Hf Hl. unfold outcome, exec, calls. split.
  - intros Hne v Hv. destruct samples as [|x l]; [done|].
    by rewrite (update_band_data h self x l v).
  - intros ->. by rewrite (update_band_empty h self).
Qed.

(** C3. For the F23 sensor, with the F2 and F3 sample lists held by the
    coordinator: after the update the sensor is available exactly when both
    lists are non-empty.  The test the code evaluates,
    [(len(F2) and len(F3)) > 0], yields the conjunction of the two length
    tests, and [(a and b) > 0] agrees with [a > 0 and b > 0] on all natural
    numbers. *)
Theorem PUNSensorEntity_update_F23_available
    (h : Heap) (self : t) (l2 l3 : list float) :
  fascia self = F23 →
  pun (pun_data (h (coordinator self))) !! F2 = Some l2 →
  pun (pun_data (h (coordinator self))) !! F3 = Some l3 →
  (available (exec (_handle_coordinator_update h) self) = true
   ↔ l2 ≠ [] ∧ l3 ≠ [])
  ∧ (n <- and_ (len_pun h F2) (len_pun h F3) ;; ret (n >? 0)%Z) self
    = (Ok ((len l2 >? 0)%Z && (len l3 >? 0)%Z), self, [])
  ∧ ∀ a b : nat,
      (int_and (Z.of_nat a) (Z.of_nat b) >? 0)%Z
      = (Z.of_nat a >? 0)%Z && (Z.of_nat b >? 0)%Z.
Proof.
  intros Hf H2 H3. split; [|split].
  - unfold exec.
    destruct l2 as [|x2 l2].
    { rewrite (update_F23_no_F2 h self Hf H2). cbn. split; [done|]. by intros [? _]. }
    destruct l3 as [|x3 l3].
    { rewrite (update_F23_no_F3 h self x2 l2 Hf H2 H3). cbn. split; [done|]. by intros [_ ?]. }
    destruct (value (pun_values (h (coordinator self))) !! F23) as [v|] eqn:Hv.
    + by rewrite (update_F23_data h self x2 l2 x3 l3 v).
    + by rewrite (update_F23_data_no_value h self x2 l2 x3 l3).
  - rewrite (and_len_pun h l2 l3 _ _ H2 H3).
    unfold ret. f_equal. f_equal. f_equal. apply int_and_pos. unfold len. lia.
  - intros a b. apply int_and_pos. lia.
Qed.

(** C8. When the update takes an unavailable branch (a band other than F23
    with an empty sample list; F23 with an empty F2 list; F23 with a non-empty
    F2 list and an empty F3 list), it only clears the availability flag: the
    stored native value is the one the sensor held before, whatever the prior
    state. *)
Theorem PUNSensorEntity_update_unavailable_keeps_value (h : Heap) (self : t) :
  (fascia self ≠ F23
   ∧ pun (pun_data (h (coordinator self))) !! fascia self = Some [])
  ∨ (fascia self = F23
     ∧ pun (pun_data (h (coordinator self))) !! F2 = Some [])
  ∨ (fascia self = F23
     ∧ (∃ x2 l2, pun (pun_data (h (coordinator self))) !! F2 = Some (x2 :: l2))
     ∧ pun (pun_data (h (coordinator self))) !! F3 = Some []) →
  _handle_coordinator_update h self
  = (Ok tt, set_available false self, [async_write_ha_state])
  ∧ available (exec (_handle_coordinator_update h) self) = false
  ∧ _native_value (exec (_handle_coordinator_update h) self) = _native_value self.
Proof.
  intros Hbranch.
  assert (_handle_coordinator_update h self
          = (Ok tt, set_available false self, [async_write_ha_state])) as Hrun.
  { destruct Hbranch as [[Hf Hl]|[[Hf H2]|(Hf & (x2 & l2 & H2) & H3)]].
    - by apply update_band_empty.
    - by apply update_F23_no_F2.
    - by apply (update_F23_no_F3 h self x2 l2). }
  unfold exec. by rewrite Hrun.
Qed.

End PUNSensorClaims.

(** C1 on the sample installation: the F1 sensor becomes available with the
    coordinator's F1 value. *)
Lemma PUNSensorEntity_update_band_witness :
  let self := PUNSensorEntity.__init__ 1%positive F1 in
  outcome (PUNSensorEntity._handle_coordinator_update sample_heap) self = Ok tt
  ∧ PUNSensorEntity.available
      (exec (PUNSensorEntity._handle_coordinator_update sample_heap) self) = true
  ∧ PUNSensorEntity._native_value
      (exec (PUNSensorEntity._handle_coordinator_update sample_heap) self)
    = VFloat 0.125
  ∧ calls (PUNSensorEntity._handle_coordinator_update sample_heap) self
    = [async_write_ha_state].
Proof.
  intros self.
  refine (proj1 (PUNSensorEntity_update_band sample_heap self [0.125%float] _ _)
            _ 0.125%float _).
  - discriminate.
  - reflexivity.
  - discriminate.
  - reflexivity.
Defined.

(** C3 on the sample installation: F2 has samples and F3 has none, so the F23
    sensor is not available after the update. *)
Lemma PUNSensorEntity_update_F23_available_witness :
  let self := PUNSensorEntity.__init__ 1%positive F23 in
  PUNSensorEntity.available
    (exec (PUNSensorEntity._handle_coordinator_update sample_heap) self) = false.
Proof.
  intros self.
  destruct (PUNSensorEntity_update_F23_available
              sample_heap self [0.25%float] [] eq_refl eq_refl eq_refl)
    as [Havailable _].
  destruct (PUNSensorEntity.available
              (exec (PUNSensorEntity._handle_coordinator_update sample_heap) self));
    [|reflexivity].
  destruct (proj1 Havailable eq_refl) as [_ Hempty]. destruct (Hempty eq_refl).
Defined.

(** C8 on the sample installation: an F3 sensor that held 0.5 keeps it when
    the update finds the F3 list empty. *)
Lemma PUNSensorEntity_update_unavailable_keeps_value_witness :
  let self :=
    PUNSensorEntity.set_native_value (VFloat 0.5)
      (PUNSensorEntity.set_available true (PUNSensorEntity.__init__ 1%positive F3)) in
  PUNSensorEntity.available
    (exec (PUNSensorEntity._handle_coordinator_update sample_heap) self) = false
  ∧ PUNSensorEntity._native_value
      (exec (PUNSensorEntity._handle_coordinator_update sample_heap) self)
    = VFloat 0.5.
Proof.
  intros self.
  refine (proj2 (PUNSensorEntity_update_unavailable_keeps_value sample_heap self _)).
  left. split.
  - discriminate.
  - reflexivity.
Defined.

(** ** [PrezzoFasciaPUNSensorEntity]: what an update does to the sensor *)

Section PrezzoFasciaUpdate.
Import PrezzoFasciaPUNSensorEntity.
Context `{!Declarations}.
Variable h : Heap.
Variable self : t.

Lemma prezzo_update_band fc samples v :
  fascia_corrente (h (coordinator self)) = Some fc →
  pun (pun_data (h (coordinator self))) !! fc = Some samples →
  value (pun_values (h (coordinator self))) !! fc = Some v →
  _handle_coordinator_update h self
  = (Ok tt,
     set_friendly_name
       (VStr ("Prezzo fascia corrente (" ++ Fascia_value fc ++ ")"))
       (set_native_value (VFloat v)
          (set_available (len samples >? 0)%Z self)),
     [async_write_ha_state]).
Proof.
  intros Hfc Hl Hv. unfold _handle_coordinator_update. mnorm.
  rewrite Hfc. mnorm.
  rewrite (bind_getitem_Some _ _ _ _ _ Hl). mnorm.
  rewrite (bind_getitem_Some (value (pun_values (h (coordinator self)))) fc v);
    [|done].
  by mnorm.
Qed.

Lemma prezzo_update_band_no_value fc samples :
  fascia_corrente (h (coordinator self)) = Some fc →
  pun (pun_data (h (coordinator self))) !! fc = Some samples →
  value (pun_values (h (coordinator self))) !! fc = None →
  _handle_coordinator_update h self
  = (Raise KeyError, set_available (len samples >? 0)%Z self, []).
Proof.
  intros Hfc Hl Hv. unfold _handle_coordinator_update. mnorm.
  rewrite Hfc. mnorm.
  rewrite (bind_getitem_Some _ _ _ _ _ Hl). mnorm.
  by rewrite (bind_getitem_None (value (pun_values (h (coordinator self)))) fc).
Qed.

Lemma prezzo_update_no_band :
  fascia_corrente (h (coordinator self)) = None →
  _handle_coordinator_update h self
  = (Ok tt,
     set_friendly_name (VStr "Prezzo fascia corrente")
       (set_native_value (VInt 0) (set_available false self)),
     [async_write_ha_state]).
Proof.
  intros Hfc. unfold _handle_coordinator_update. mnorm.
  rewrite Hfc. by mnorm.
Qed.

End PrezzoFasciaUpdate.

Section PrezzoFasciaClaims.
Import PrezzoFasciaPUNSensorEntity.
Context `{!Declarations}.

(** C2. When the coordinator's current band is some band whose raw sample
    list the coordinator holds, the update leaves the sensor available
    exactly when that list is non-empty; and, the coordinator's computed
    value mapping having an entry for the band, the update stores that entry
    as native value, names the sensor after the band and publishes the
    state. *)
Theorem PrezzoFasciaPUNSensorEntity_update_current_band
    (h : Heap) (self : t) (fc : Fascia) (samples : list float) :
  fascia_corrente (h (coordinator self)) = Some fc →
  pun (pun_data (h (coordinator self))) !! fc = Some samples →
  (available (exec (_handle_coordinator_update h) self) = true ↔ samples ≠ [])
  ∧ ∀ v, value (pun_values (h (coordinator self))) !! fc = Some v →
      outcome (_handle_coordinator_update h) self = Ok tt
      ∧ _native_value (exec (_handle_coordinator_update h) self) = VFloat v
      ∧ name (exec (_handle_coordinator_update h) self)
        = VStr ("Prezzo fascia corrente (" ++ Fascia_value fc ++ ")")
      ∧ calls (_handle_coordinator_update h) self = [async_write_ha_state].
Proof.
  intros Hfc Hl. unfold outcome, exec, calls. split.
  - destruct (value (pun_values (h (coordinator self))) !! fc) as [v|] eqn:Hv.
    + rewrite (prezzo_update_band h self fc samples v Hfc Hl Hv). cbn.
      rewrite len_gtb_0. by destruct samples.
    + rewrite (prezzo_update_band_no_value h self fc samples Hfc Hl Hv). cbn.
      rewrite len_gtb_0. by destruct samples.
  - intros v Hv. by rewrite (prezzo_update_band h self fc samples v Hfc Hl Hv).
Qed.

(** C9. When the coordinator has no current band, the update makes the
    sensor unavailable, resets its stored native value to 0 and its friendly
    name to "Prezzo fascia corrente", whatever they were, and publishes the
    state. *)
Theorem PrezzoFasciaPUNSensorEntity_update_no_band (h : Heap) (self : t) :
  fascia_corrente (h (coordinator self)) = None →
  outcome (_handle_coordinator_update h) self = Ok tt
  ∧ available (exec (_handle_coordinator_update h) self) = false
  ∧ _native_value (exec (_handle_coordinator_update h) self) = VInt 0
  ∧ name (exec (_handle_coordinator_update h) self)
    = VStr "Prezzo fascia corrente"
  ∧ calls (_handle_coordinator_update h) self = [async_write_ha_state].
Proof.
  intros Hfc. unfold outcome, exec, calls.
  by rewrite (prezzo_update_no_band h self Hfc).
Qed.

End PrezzoFasciaClaims.

(** C2 on the sample installation: the current band is F1, which has one
    sample and the value 0.125. *)
Lemma PrezzoFasciaPUNSensorEntity_update_current_band_witness :
  let self := PrezzoFasciaPUNSensorEntity.__init__ 1%positive in
  let update :=
    PrezzoFasciaPUNSensorEntity._handle_coordinator_update
      (H := sample_declarations) sample_heap in
  (PrezzoFasciaPUNSensorEntity.available (exec update self) = true
   ↔ [0.125%float] ≠ [])
  ∧ PrezzoFasciaPUNSensorEntity._native_value (exec update self) = VFloat 0.125
  ∧ PrezzoFasciaPUNSensorEntity.name (exec update self)
    = VStr "Prezzo fascia corrente (F1)".
Proof.
  intros self update.
  destruct (PrezzoFasciaPUNSensorEntity_update_current_band
              (H := sample_declarations) sample_heap self F1 [0.125%float]
              eq_refl eq_refl) as [Havailable Hvalue].
  destruct (Hvalue 0.125%float eq_refl) as (_ & Hnative & Hname & _).
  exact (conj Havailable (conj Hnative Hname)).
Defined.

(** C9 on the sample installation: a sensor that showed the F2 price and is
    bound to the idle coordinator falls back to the defaults. *)
Lemma PrezzoFasciaPUNSensorEntity_update_no_band_witness :
  let self :=
    PrezzoFasciaPUNSensorEntity.set_friendly_name
      (VStr "Prezzo fascia corrente (F2)")
      (PrezzoFasciaPUNSensorEntity.set_native_value (VFloat 0.25)
         (PrezzoFasciaPUNSensorEntity.set_available true
            (PrezzoFasciaPUNSensorEntity.__init__ 2%positive))) in
  let update :=
    PrezzoFasciaPUNSensorEntity._handle_coordinator_update
      (H := sample_declarations) sample_heap in
  outcome update self = Ok tt
  ∧ PrezzoFasciaPUNSensorEntity.available (exec update self) = false
  ∧ PrezzoFasciaPUNSensorEntity._native_value (exec update self) = VInt 0
  ∧ PrezzoFasciaPUNSensorEntity.name (exec update self)
    = VStr "Prezzo fascia corrente"
  ∧ calls update self = [async_write_ha_state].
Proof.
  intros self update.
  exact (PrezzoFasciaPUNSensorEntity_update_no_band
           (H := sample_declarations) sample_heap self eq_refl).
Defined.

(** ** Saving and restoring the last known value *)

Section Restore.

Lemma pun_saved_entry (saved : PUNSensorEntity.t) :
  dict_get (as_dict (PUNSensorEntity.extra_restore_state_data saved)) "native_value"
  = if PUNSensorEntity._available saved
    then Some (PUNSensorEntity._native_value saved) else None.
Proof. reflexivity. Qed.

Lemma prezzo_saved_native_value (saved : PrezzoFasciaPUNSensorEntity.t) :
  dict_get (as_dict (PrezzoFasciaPUNSensorEntity.extra_restore_state_data saved))
    "native_value"
  = if PrezzoFasciaPUNSensorEntity._available saved
    then Some (PrezzoFasciaPUNSensorEntity._native_value saved) else None.
Proof. reflexivity. Qed.

Lemma prezzo_saved_friendly_name (saved : PrezzoFasciaPUNSensorEntity.t) :
  dict_get (as_dict (PrezzoFasciaPUNSensorEntity.extra_restore_state_data saved))
    "friendly_name"
  = if PrezzoFasciaPUNSensorEntity._available saved
    then Some (PrezzoFasciaPUNSensorEntity._friendly_name saved) else None.
Proof. reflexivity. Qed.

(** C4. Restore round trip, the host handing [async_added_to_hass] the data
    [extra_restore_state_data] produced.  For both restorable sensors and any
    entity [target] being added: data saved by an available sensor make
    [target] available with the saved native value (and, for the price of the
    current band, the saved friendly name); an unavailable sensor saves
    [None] under each key, and restoring such data leaves [target] as it
    was.  More generally, restoring data whose "native_value" is [None] or
    missing changes neither availability nor native value. *)
Theorem restore_round_trip :
  (∀ saved target : PUNSensorEntity.t,
     let data := PUNSensorEntity.extra_restore_state_data saved in
     let restored := exec (PUNSensorEntity.async_added_to_hass (Some data)) target in
     if PUNSensorEntity.available saved
     then PUNSensorEntity.available restored = true
          ∧ PUNSensorEntity._native_value restored
            = PUNSensorEntity._native_value saved
     else as_dict data !! "native_value" = Some None
          ∧ restored = target)
  ∧ (∀ (old : RestoredExtraData) (target : PUNSensorEntity.t),
       dict_get (as_dict old) "native_value" = None →
       exec (PUNSensorEntity.async_added_to_hass (Some old)) target = target)
  ∧ (∀ saved target : PrezzoFasciaPUNSensorEntity.t,
       let data := PrezzoFasciaPUNSensorEntity.extra_restore_state_data saved in
       let restored :=
         exec (PrezzoFasciaPUNSensorEntity.async_added_to_hass (Some data)) target in
       if PrezzoFasciaPUNSensorEntity.available saved
       then PrezzoFasciaPUNSensorEntity.available restored = true
            ∧ PrezzoFasciaPUNSensorEntity._native_value restored
              = PrezzoFasciaPUNSensorEntity._native_value saved
            ∧ PrezzoFasciaPUNSensorEntity.name restored
              = PrezzoFasciaPUNSensorEntity.name saved
       else as_dict data !! "native_value" = Some None
            ∧ as_dict data !! "friendly_name" = Some None
            ∧ restored = target)
  ∧ (∀ (old : RestoredExtraData) (target : PrezzoFasciaPUNSensorEntity.t),
       dict_get (as_dict old) "native_value" = None →
       let restored :=
         exec (PrezzoFasciaPUNSensorEntity.async_added_to_hass (Some old)) target in
       PrezzoFasciaPUNSensorEntity.available restored
       = PrezzoFasciaPUNSensorEntity.available target
       ∧ PrezzoFasciaPUNSensorEntity._native_value restored
         = PrezzoFasciaPUNSensorEntity._native_value target).
Proof.
  split; [|split; [|split]].
  - intros saved target data restored. subst data restored.
    unfold exec, PUNSensorEntity.async_added_to_hass, PUNSensorEntity.available.
    rewrite pun_saved_entry. unfold PUNSensorEntity.extra_restore_state_data.
    destruct (PUNSensorEntity._available saved); [done|].
    split; reflexivity.
  - intros old target Hold.
    unfold exec, PUNSensorEntity.async_added_to_hass. by rewrite Hold.
  - intros saved target data restored. subst data restored.
    unfold exec, PrezzoFasciaPUNSensorEntity.async_added_to_hass,
      PrezzoFasciaPUNSensorEntity.available.
    rewrite prezzo_saved_native_value, prezzo_saved_friendly_name.
    unfold PrezzoFasciaPUNSensorEntity.extra_restore_state_data.
    destruct (PrezzoFasciaPUNSensorEntity._available saved); [done|].
    split; [|split]; reflexivity.
  - intros old target Hold restored. subst restored.
    unfold exec, PrezzoFasciaPUNSensorEntity.async_added_to_hass.
    rewrite Hold. by destruct (dict_get (as_dict old) "friendly_name").
Qed.

End Restore.

(** C4 on the sample installation: what the F1 sensor and the sensor of the
    current band's price saved after an update is what freshly created
    sensors show once restored. *)
Lemma restore_round_trip_witness :
  let saved :=
    exec (PUNSensorEntity._handle_coordinator_update sample_heap)
      (PUNSensorEntity.__init__ 1%positive F1) in
  let restored :=
    exec (PUNSensorEntity.async_added_to_hass
            (Some (PUNSensorEntity.extra_restore_state_data saved)))
      (PUNSensorEntity.__init__ 1%positive F1) in
  let saved_price :=
    exec (PrezzoFasciaPUNSensorEntity._handle_coordinator_update
            (H := sample_declarations) sample_heap)
      (PrezzoFasciaPUNSensorEntity.__init__ 1%positive) in
  let restored_price :=
    exec (PrezzoFasciaPUNSensorEntity.async_added_to_hass
            (Some (PrezzoFasciaPUNSensorEntity.extra_restore_state_data saved_price)))
      (PrezzoFasciaPUNSensorEntity.__init__ 1%positive) in
  (PUNSensorEntity.available restored = true
   ∧ PUNSensorEntity._native_value restored = VFloat 0.125)
  ∧ (PrezzoFasciaPUNSensorEntity.available restored_price = true
     ∧ PrezzoFasciaPUNSensorEntity._native_value restored_price = VFloat 0.125
     ∧ PrezzoFasciaPUNSensorEntity.name restored_price
       = VStr "Prezzo fascia corrente (F1)").
Proof.
  intros saved restored saved_price restored_price.
  destruct restore_round_trip as (Hpun & _ & Hprice & _).
  split.
  - exact (Hpun saved (PUNSensorEntity.__init__ 1%positive F1)).
  - exact (Hprice saved_price (PrezzoFasciaPUNSensorEntity.__init__ 1%positive)).
Defined.

(** ** Accessors *)

Section Accessors.
Context `{!Declarations}.

(** C5. The sensor of the current band is available exactly when the
    coordinator's current band is not [None]; its native value is the string
    value of that band when there is one, and [None] otherwise. *)
Theorem FasciaPUNSensorEntity_available_native_value
    (h : Heap) (self : FasciaPUNSensorEntity.t) :
  (FasciaPUNSensorEntity.available h self = true
   ↔ fascia_corrente (h (FasciaPUNSensorEntity.coordinator self)) ≠ None)
  ∧ FasciaPUNSensorEntity.native_value h self
    = match fascia_corrente (h (FasciaPUNSensorEntity.coordinator self)) with
      | Some band => Some (Fascia_value band)
      | None => None
      end.
Proof.
  unfold FasciaPUNSensorEntity.available, FasciaPUNSensorEntity.native_value.
  destruct (fascia_corrente (h (FasciaPUNSensorEntity.coordinator self)))
    as [band|]; split; try reflexivity.
  - split; [discriminate | reflexivity].
  - split; [discriminate | congruence].
Qed.

(** C6. No entity of the platform polls, in any state: [should_poll] is
    [False] for the three classes. *)
Theorem entities_never_poll :
  (∀ self : PUNSensorEntity.t, PUNSensorEntity.should_poll self = false)
  ∧ (∀ self : FasciaPUNSensorEntity.t,
       FasciaPUNSensorEntity.should_poll self = false)
  ∧ (∀ self : PrezzoFasciaPUNSensorEntity.t,
       PrezzoFasciaPUNSensorEntity.should_poll self = false).
Proof. repeat split. Qed.

(** C7. Both price sensors report the unit "€/kWh" (the euro sign, a slash,
    the kilowatt-hour unit) in every state. *)
Theorem price_sensors_unit_of_measurement :
  (∀ self : PUNSensorEntity.t,
     PUNSensorEntity.native_unit_of_measurement self = "€/kWh")
  ∧ (∀ self : PrezzoFasciaPUNSensorEntity.t,
       PrezzoFasciaPUNSensorEntity.native_unit_of_measurement self = "€/kWh")
  ∧ "€/kWh" = CURRENCY_EURO ++ "/" ++ KILO_WATT_HOUR.
Proof. repeat split. Qed.

End Accessors.

(** ** Platform set-up *)

Section SetupClaims.
Context `{!Declarations}.

Lemma count_entities_app p l1 l2 :
  count_entities p (l1 ++ l2) = count_entities p l1 + count_entities p l2.
Proof. unfold count_entities. by rewrite List.filter_app, length_app. Qed.

Lemma count_PUNSensor_for (c : ref) (f : Fascia) (keys : list Fascia) :
  NoDup keys →
  count_entities (is_PUNSensor_for f)
    (map (λ fascia, PUNSensor (PUNSensorEntity.__init__ c fascia)) keys)
  = if bool_decide (f ∈ keys) then 1 else 0.
Proof.
  unfold count_entities. induction 1 as [|k keys Hk Hkeys IH]; [done|].
  cbn [map List.filter is_PUNSensor_for PUNSensorEntity.__init__
       PUNSensorEntity.fascia].
  destruct (decide (k = f)) as [->|Hne].
  - rewrite bool_decide_true by done. cbn [length]. rewrite IH.
    rewrite (bool_decide_false (f ∈ keys)) by done.
    by rewrite (bool_decide_true (f ∈ f :: keys)) by (apply elem_of_cons; by left).
  - rewrite bool_decide_false by done. rewrite IH.
    rewrite (bool_decide_ext (f ∈ k :: keys) (f ∈ keys)); [done|].
    rewrite elem_of_cons. split; [|by right]. by intros [->|?].
Qed.

Lemma count_other_in_PUNSensors p (c : ref) (keys : list Fascia) :
  (∀ e, p (PUNSensor e) = false) →
  count_entities p
    (map (λ fascia, PUNSensor (PUNSensorEntity.__init__ c fascia)) keys) = 0.
Proof.
  intros Hp. unfold count_entities. induction keys as [|k keys IH]; [done|].
  cbn [map List.filter]. by rewrite Hp.
Qed.

(** C10. With [hass.data[DOMAIN][config.entry_id]] holding the coordinator,
    [async_setup_entry] returns after a single call of [async_add_entities],
    with [update_before_add=False] and a list of entities made of one
    [PUNSensorEntity] for each key of [PunValues().value] (in the order of the
    keys, and none for any other band), followed by one
    [FasciaPUNSensorEntity] and one [PrezzoFasciaPUNSensorEntity]; every
    entity of the list is bound to that coordinator. *)
Theorem async_setup_entry_entities
    (hass : HomeAssistant) (config : ConfigEntry) (settings : CommonSettings)
    (by_domain : gmap string ref) (c : ref) :
  data hass !! DOMAIN = Some by_domain →
  by_domain !! entry_id config = Some c →
  ∃ entities : list SensorEntity,
    outcome (async_setup_entry hass config) settings = Ok tt
    ∧ calls (async_setup_entry hass config) settings
      = [async_add_entities entities false]
    ∧ entities
      = (map (λ fascia, PUNSensor (PUNSensorEntity.__init__ c fascia)) PunValues_keys
         ++ [FasciaPUNSensor (FasciaPUNSensorEntity.__init__ c);
             PrezzoFasciaPUNSensor (PrezzoFasciaPUNSensorEntity.__init__ c)])%list
    ∧ (∀ f : Fascia,
         count_entities (is_PUNSensor_for f) entities
         = if bool_decide (f ∈ PunValues_keys) then 1 else 0)
    ∧ count_entities is_FasciaPUNSensor entities = 1
    ∧ count_entities is_PrezzoFasciaPUNSensor entities = 1
    ∧ length entities = length PunValues_keys + 2
    ∧ Forall (λ e, entity_coordinator e = c) entities.
Proof.
  intros Hdomain Hentry. eexists.
  assert (async_setup_entry hass config settings
          = (Ok tt,
             {| has_suggested_display_precision :=
                  AwesomeVersion_ge HA_VERSION "2023.3.0" |},
             [async_add_entities
                (map (λ fascia, PUNSensor (PUNSensorEntity.__init__ c fascia))
                   PunValues_keys
                 ++ [FasciaPUNSensor (FasciaPUNSensorEntity.__init__ c);
                     PrezzoFasciaPUNSensor (PrezzoFasciaPUNSensorEntity.__init__ c)])
                false])) as Hrun.
  { unfold async_setup_entry.
    rewrite (bind_getitem_Some _ _ _ _ _ Hdomain).
    rewrite (bind_getitem_Some _ _ _ _ _ Hentry).
    rewrite bind_modify. cbn [app]. by rewrite <- (assoc_L (++)). }
  unfold outcome, calls. rewrite Hrun. cbn [fst snd].
  split; [reflexivity|]. split; [reflexivity|]. split; [reflexivity|].
  split; [|split; [|split; [|split]]].
  - intros f. rewrite count_entities_app, count_PUNSensor_for.
    + cbn. lia.
    + apply PunValues_keys_NoDup.
  - by rewrite count_entities_app, count_other_in_PUNSensors.
  - by rewrite count_entities_app, count_other_in_PUNSensors.
  - rewrite length_app, length_map. reflexivity.
  - apply Forall_app. split.
    + apply Forall_forall. intros e He.
      apply list_elem_of_fmap in He as (f & -> & _). reflexivity.
    + by repeat constructor.
Qed.

End SetupClaims.

(** C10 on the sample installation: seven entities, all bound to
    coordinator 1, exactly one of them the F23 sensor. *)
Lemma async_setup_entry_entities_witness :
  ∃ entities : list SensorEntity,
    calls (async_setup_entry (H := sample_declarations) sample_hass sample_config)
      {| has_suggested_display_precision := false |}
    = [async_add_entities entities false]
    ∧ length entities = 7
    ∧ count_entities (is_PUNSensor_for F23) entities = 1
    ∧ Forall (λ e, entity_coordinator e = 1%positive) entities.
Proof.
  destruct (async_setup_entry_entities (H := sample_declarations)
              sample_hass sample_config
              {| has_suggested_display_precision := false |}
              {[ "entry-1" := 1%positive ]} 1%positive eq_refl eq_refl)
    as (entities & _ & Hcalls & _ & Hpun & _ & _ & Hlength & Hbound).
  exists entities. split; [exact Hcalls|]. split; [exact Hlength|].
  split; [exact (Hpun F23)|exact Hbound].
Defined.

(** * Further properties of the update handlers *)

(** ** [PUNSensorEntity]: failing subscripts and the shape of every run *)

Section PUNSensorRuns.
Import PUNSensorEntity.
Variable h : Heap.

Lemma len_pun_None {B} (f : Fascia) (k : Z → M HaCall t B) σ :
  pun (pun_data (h (coordinator σ))) !! f = None →
  bind (len_pun h f) k σ = (Raise KeyError, σ, []).
Proof.
  intros Hl. unfold len_pun. mnorm.
  by rewrite (bind_getitem_None _ _ _ _ Hl).
Qed.

Lemma update_band_no_key self :
  fascia self ≠ F23 →
  pun (pun_data (h (coordinator self))) !! fascia self = None →
  _handle_coordinator_update h self = (Raise KeyError, self, []).
Proof.
  intros Hf Hl. unfold _handle_coordinator_update. mnorm.
  rewrite bool_decide_true by done. mnorm.
  by rewrite (len_pun_None _ _ _ Hl).
Qed.

Lemma update_F23_no_F2_key self :
  fascia self = F23 →
  pun (pun_data (h (coordinator self))) !! F2 = None →
  _handle_coordinator_update h self = (Raise KeyError, self, []).
Proof.
  intros Hf H2. unfold _handle_coordinator_update. mnorm.
  rewrite Hf, bool_decide_false by (by intros ?). mnorm.
  unfold and_. mnorm. by rewrite (len_pun_None _ _ _ H2).
Qed.

Lemma update_F23_no_F3_key self x2 l2 :
  fascia self = F23 →
  pun (pun_data (h (coordinator self))) !! F2 = Some (x2 :: l2) →
  pun (pun_data (h (coordinator self))) !! F3 = None →
  _handle_coordinator_update h self = (Raise KeyError, self, []).
Proof.
  intros Hf H2 H3. unfold _handle_coordinator_update. mnorm.
  rewrite Hf, bool_decide_false by (by intros ?). mnorm.
  unfold and_. mnorm. rewrite (len_pun_Some h _ _ _ _ H2).
  change (int_bool (len (x2 :: l2))) with true. cbv iota.
  by rewrite (len_pun_None _ _ _ H3).
Qed.

(** Every run of the handler has one of four shapes, and which one depends
    on the entity only through its coordinator and its band. *)
Lemma update_uniform (self : t) :
  ∃ (r : Outcome unit) (f : t → t),
    (∀ σ, coordinator σ = coordinator self → fascia σ = fascia self →
          _handle_coordinator_update h σ
          = (r, f σ, if r is Ok _ then [async_write_ha_state] else []))
    ∧ ((r = Ok tt ∧ f = set_available false)
       ∨ (r = Ok tt
          ∧ ∃ v, value (pun_values (h (coordinator self))) !! fascia self = Some v
                 ∧ f = λ σ, set_native_value (VFloat v) (set_available true σ))
       ∨ (r = Raise KeyError ∧ f = set_available true)
       ∨ (r = Raise KeyError ∧ f = id)).
Proof.
  destruct (decide (fascia self = F23)) as [Hf|Hf].
  - destruct (pun (pun_data (h (coordinator self))) !! F2)
      as [[|x2 l2]|] eqn:H2.
    + exists (Ok tt), (set_available false). split; [|by left].
      intros σ Hc Hb. apply update_F23_no_F2; by rewrite ?Hc, ?Hb.
    + destruct (pun (pun_data (h (coordinator self))) !! F3)
        as [[|x3 l3]|] eqn:H3.
      * exists (Ok tt), (set_available false). split; [|by left].
        intros σ Hc Hb. apply (update_F23_no_F3 h σ x2 l2); by rewrite ?Hc, ?Hb.
      * destruct (value (pun_values (h (coordinator self))) !! F23)
          as [v|] eqn:Hv.
        -- exists (Ok tt), (λ σ, set_native_value (VFloat v) (set_available true σ)).
           split; [|right; left; split; [done|]; exists v; by rewrite Hf].
           intros σ Hc Hb.
           apply (update_F23_data h σ x2 l2 x3 l3 v); by rewrite ?Hc, ?Hb.
        -- exists (Raise KeyError), (set_available true).
           split; [|by right; right; left].
           intros σ Hc Hb.
           apply (update_F23_data_no_value h σ x2 l2 x3 l3); by rewrite ?Hc, ?Hb.
      * exists (Raise KeyError), id. split; [|by right; right; right].
        intros σ Hc Hb. apply (update_F23_no_F3_key σ x2 l2); by rewrite ?Hc, ?Hb.
    + exists (Raise KeyError), id. split; [|by right; right; right].
      intros σ Hc Hb. apply (update_F23_no_F2_key σ); by rewrite ?Hc, ?Hb.
  - destruct (pun (pun_data (h (coordinator self))) !! fascia self)
      as [[|x l]|] eqn:Hl.
    + exists (Ok tt), (set_available false). split; [|by left].
      intros σ Hc Hb. apply update_band_empty; by rewrite ?Hc, ?Hb.
    + destruct (value (pun_values (h (coordinator self))) !! fascia self)
        as [v|] eqn:Hv.
      * exists (Ok tt), (λ σ, set_native_value (VFloat v) (set_available true σ)).
        split; [|right; left; split; [done|]; by exists v].
        intros σ Hc Hb. apply (update_band_data h σ x l v); by rewrite ?Hc, ?Hb.
      * exists (Raise KeyError), (set_available true).
        split; [|by right; right; left].
        intros σ Hc Hb.
        apply (update_band_data_no_value h σ x l); by rewrite ?Hc, ?Hb.
    + exists (Raise KeyError), id. split; [|by right; right; right].
      intros σ Hc Hb. apply (update_band_no_key σ); by rewrite ?Hc, ?Hb.
Qed.

End PUNSensorRuns.

Section PUNSensorFurther.
Import PUNSensorEntity.

(** X1. When the handler finds samples for the sensor's band (a band other
    than F23 with a non-empty list, or F23 with non-empty F2 and F3 lists) but
    the computed value mapping has no entry for the band, it raises
    [KeyError] after having marked the sensor available: the sensor is left
    available with the value it held before, and the state is not
    published. *)
Theorem PUNSensorEntity_update_missing_value (h : Heap) (self : t) :
  (fascia self ≠ F23
   ∧ ∃ x l, pun (pun_data (h (coordinator self))) !! fascia self = Some (x :: l))
  ∨ (fascia self = F23
     ∧ (∃ x2 l2, pun (pun_data (h (coordinator self))) !! F2 = Some (x2 :: l2))
     ∧ ∃ x3 l3, pun (pun_data (h (coordinator self))) !! F3 = Some (x3 :: l3)) →
  value (pun_values (h (coordinator self))) !! fascia self = None →
  outcome (_handle_coordinator_update h) self = Raise KeyError
  ∧ exec (_handle_coordinator_update h) self = set_available true self
  ∧ available (exec (_handle_coordinator_update h) self) = true
  ∧ _native_value (exec (_handle_coordinator_update h) self) = _native_value self
  ∧ calls (_handle_coordinator_update h) self = [].
Proof.
  intros Hdata Hv.
  assert (_handle_coordinator_update h self
          = (Raise KeyError, set_available true self, [])) as Hrun.
  { destruct Hdata as [(Hf & x & l & Hl)|(Hf & (x2 & l2 & H2) & (x3 & l3 & H3))].
    - by apply (update_band_data_no_value h self x l).
    - apply (update_F23_data_no_value h self x2 l2 x3 l3); try done.
      by rewrite <- Hf. }
  unfold outcome, exec, calls. by rewrite Hrun.
Qed.

(** X2. When the sample mapping lacks the key the handler reads (the
    sensor's band for a band other than F23; F2 for F23; F3 for F23 once F2
    is non-empty), the handler raises [KeyError] with the entity untouched
    and nothing published. *)
Theorem PUNSensorEntity_update_missing_samples (h : Heap) (self : t) :
  (fascia self ≠ F23
   ∧ pun (pun_data (h (coordinator self))) !! fascia self = None)
  ∨ (fascia self = F23
     ∧ pun (pun_data (h (coordinator self))) !! F2 = None)
  ∨ (fascia self = F23
     ∧ (∃ x2 l2, pun (pun_data (h (coordinator self))) !! F2 = Some (x2 :: l2))
     ∧ pun (pun_data (h (coordinator self))) !! F3 = None) →
  _handle_coordinator_update h self = (Raise KeyError, self, []).
Proof.
  intros [[Hf Hl]|[[Hf H2]|(Hf & (x2 & l2 & H2) & H3)]].
  - by apply update_band_no_key.
  - by apply update_F23_no_F2_key.
  - by apply (update_F23_no_F3_key h self x2 l2).
Qed.

(** X3. Whatever the coordinator holds and whatever the prior state, a run
    of the handler changes no attribute other than [_available] and
    [_native_value]; it publishes the state exactly once when it returns and
    not at all when it raises; and the stored value changes only on a return
    that leaves the sensor available. *)
Theorem PUNSensorEntity_update_frame (h : Heap) (self : t) :
  let after := exec (_handle_coordinator_update h) self in
  (coordinator after = coordinator self
   ∧ fascia after = fascia self
   ∧ entity_id after = entity_id self
   ∧ _attr_unique_id after = _attr_unique_id self
   ∧ _attr_has_entity_name after = _attr_has_entity_name self
   ∧ _attr_state_class after = _attr_state_class self
   ∧ _attr_suggested_display_precision after
     = _attr_suggested_display_precision self)
  ∧ ((outcome (_handle_coordinator_update h) self = Ok tt
      ∧ calls (_handle_coordinator_update h) self = [async_write_ha_state])
     ∨ (outcome (_handle_coordinator_update h) self = Raise KeyError
        ∧ calls (_handle_coordinator_update h) self = []))
  ∧ (_native_value after = _native_value self
     ∨ (outcome (_handle_coordinator_update h) self = Ok tt
        ∧ available after = true
        ∧ Some (_native_value after)
          = VFloat <$> value (pun_values (h (coordinator self))) !! fascia self)).
Proof.
  destruct (update_uniform h self) as (r & f & Hrun & Hshape).
  pose proof (Hrun self eq_refl eq_refl) as Hself.
  unfold outcome, exec, calls. rewrite Hself. cbn [fst snd].
  destruct Hshape as [[-> ->]|[(-> & v & Hv & ->)|[[-> ->]|[-> ->]]]];
    cbn; rewrite ?Hv; intuition eauto.
Qed.

(** X4. The handler is idempotent: run again on the state it left, against
    the same coordinator, it ends the same way, leaves that state as it is
    and makes the same calls. *)
Theorem PUNSensorEntity_update_idempotent (h : Heap) (self : t) :
  _handle_coordinator_update h (exec (_handle_coordinator_update h) self)
  = _handle_coordinator_update h self.
Proof.
  destruct (update_uniform h self) as (r & f & Hrun & Hshape).
  pose proof (Hrun self eq_refl eq_refl) as Hself.
  unfold exec. rewrite Hself. cbn [fst snd].
  destruct Hshape as [[-> ->]|[(-> & v & Hv & ->)|[[-> ->]|[-> ->]]]];
    match goal with
    | |- _handle_coordinator_update h ?σ = _ => by rewrite (Hrun σ eq_refl eq_refl)
    end.
Qed.

End PUNSensorFurther.

(** X1 on the faulty installation: the F1 sensor ends available with its
    initial value 0 and unpublished. *)
Lemma PUNSensorEntity_update_missing_value_witness :
  let self := PUNSensorEntity.__init__ 1%positive F1 in
  outcome (PUNSensorEntity._handle_coordinator_update faulty_heap) self
  = Raise KeyError
  ∧ PUNSensorEntity.available
      (exec (PUNSensorEntity._handle_coordinator_update faulty_heap) self) = true
  ∧ PUNSensorEntity._native_value
      (exec (PUNSensorEntity._handle_coordinator_update faulty_heap) self) = VInt 0
  ∧ calls (PUNSensorEntity._handle_coordinator_update faulty_heap) self = [].
Proof.
  intros self.
  destruct (PUNSensorEntity_update_missing_value faulty_heap self)
    as (Hout & _ & Havailable & Hvalue & Hcalls).
  - left. split; [discriminate|]. exists 0.125%float, []. reflexivity.
  - reflexivity.
  - exact (conj Hout (conj Havailable (conj Hvalue Hcalls))).
Defined.

(** X2 on the faulty installation: coordinator 2 holds no samples at all. *)
Lemma PUNSensorEntity_update_missing_samples_witness :
  PUNSensorEntity._handle_coordinator_update faulty_heap
    (PUNSensorEntity.__init__ 2%positive F23)
  = (Raise KeyError, PUNSensorEntity.__init__ 2%positive F23, []).
Proof.
  apply PUNSensorEntity_update_missing_samples.
  right. left. split; reflexivity.
Defined.

(** ** [PrezzoFasciaPUNSensorEntity]: failing subscripts and the shape of every run *)

Section PrezzoFasciaRuns.
Import PrezzoFasciaPUNSensorEntity.
Context `{!Declarations}.
Variable h : Heap.

Lemma prezzo_update_no_key self fc :
  fascia_corrente (h (coordinator self)) = Some fc →
  pun (pun_data (h (coordinator self))) !! fc = None →
  _handle_coordinator_update h self = (Raise KeyError, self, []).
Proof.
  intros Hfc Hl. unfold _handle_coordinator_update. mnorm.
  rewrite Hfc. mnorm. by rewrite (bind_getitem_None _ _ _ _ Hl).
Qed.

(** Every run of the handler has one of four shapes, and which one depends
    on the entity only through its coordinator. *)
Lemma prezzo_update_uniform (self : t) :
  ∃ (r : Outcome unit) (f : t → t),
    (∀ σ, coordinator σ = coordinator self →
          _handle_coordinator_update h σ
          = (r, f σ, if r is Ok _ then [async_write_ha_state] else []))
    ∧ ((r = Ok tt
        ∧ ∃ b v n, f = λ σ, set_friendly_name n
                              (set_native_value v (set_available b σ)))
       ∨ (r = Raise KeyError ∧ ∃ b, f = set_available b)
       ∨ (r = Raise KeyError ∧ f = id)).
Proof.
  destruct (fascia_corrente (h (coordinator self))) as [fc|] eqn:Hfc.
  - destruct (pun (pun_data (h (coordinator self))) !! fc)
      as [samples|] eqn:Hl.
    + destruct (value (pun_values (h (coordinator self))) !! fc)
        as [v|] eqn:Hv.
      * eexists (Ok tt), _. split; [|left; split; [done|]; by eexists _, _, _].
        intros σ Hc.
        apply (prezzo_update_band h σ fc samples v); by rewrite Hc.
      * eexists (Raise KeyError), _. split; [|right; left; split; [done|]; by eexists].
        intros σ Hc.
        apply (prezzo_update_band_no_value h σ fc samples); by rewrite Hc.
    + exists (Raise KeyError), id. split; [|by right; right].
      intros σ Hc. apply (prezzo_update_no_key σ fc); by rewrite Hc.
  - eexists (Ok tt), _. split; [|left; split; [done|]; by eexists _, _, _].
    intros σ Hc. apply (prezzo_update_no_band h σ); by rewrite Hc.
Qed.

End PrezzoFasciaRuns.

Section PrezzoFasciaFurther.
Import PrezzoFasciaPUNSensorEntity.
Context `{!Declarations}.

(** X5. With a current band set: when the sample mapping has no list for
    it, the handler raises [KeyError] with the entity untouched; when the
    list is there but the computed value mapping has no entry for the band,
    it raises [KeyError] after having set the availability from the list, so
    the sensor keeps the value and the friendly name it had before.  Nothing
    is published in either case. *)
Theorem PrezzoFasciaPUNSensorEntity_update_missing_entry
    (h : Heap) (self : t) (fc : Fascia) :
  fascia_corrente (h (coordinator self)) = Some fc →
  (pun (pun_data (h (coordinator self))) !! fc = None →
   _handle_coordinator_update h self = (Raise KeyError, self, []))
  ∧ (∀ samples,
       pun (pun_data (h (coordinator self))) !! fc = Some samples →
       value (pun_values (h (coordinator self))) !! fc = None →
       _handle_coordinator_update h self
       = (Raise KeyError, set_available (len samples >? 0)%Z self, [])
       ∧ (available (exec (_handle_coordinator_update h) self) = true
          ↔ samples ≠ [])
       ∧ _native_value (exec (_handle_coordinator_update h) self)
         = _native_value self
       ∧ name (exec (_handle_coordinator_update h) self) = name self).
Proof.
  intros Hfc. split.
  - intros Hl. by apply (prezzo_update_no_key h self fc).
  - intros samples Hl Hv. unfold exec.
    rewrite (prezzo_update_band_no_value h self fc samples Hfc Hl Hv).
    cbn. rewrite len_gtb_0. by destruct samples.
Qed.

(** X6. Whatever the coordinator holds and whatever the prior state, a run
    of the handler leaves the coordinator reference, the ids and the static
    attributes of the entity as they were, and publishes the state exactly
    once when it returns and not at all when it raises. *)
Theorem PrezzoFasciaPUNSensorEntity_update_frame (h : Heap) (self : t) :
  let after := exec (_handle_coordinator_update h) self in
  (coordinator after = coordinator self
   ∧ entity_id after = entity_id self
   ∧ _attr_unique_id after = _attr_unique_id self
   ∧ _attr_has_entity_name after = _attr_has_entity_name self
   ∧ _attr_state_class after = _attr_state_class self
   ∧ _attr_suggested_display_precision after
     = _attr_suggested_display_precision self)
  ∧ ((outcome (_handle_coordinator_update h) self = Ok tt
      ∧ calls (_handle_coordinator_update h) self = [async_write_ha_state])
     ∨ (outcome (_handle_coordinator_update h) self = Raise KeyError
        ∧ calls (_handle_coordinator_update h) self = []
        ∧ _native_value after = _native_value self
        ∧ name after = name self)).
Proof.
  destruct (prezzo_update_uniform h self) as (r & f & Hrun & Hshape).
  pose proof (Hrun self eq_refl) as Hself.
  unfold outcome, exec, calls. rewrite Hself. cbn [fst snd].
  destruct Hshape as [(-> & b & v & n & ->)|[(-> & b & ->)|[-> ->]]];
    cbn; intuition eauto.
Qed.

(** X7. The handler is idempotent: run again on the state it left, against
    the same coordinator, it ends the same way, leaves that state as it is
    and makes the same calls. *)
Theorem PrezzoFasciaPUNSensorEntity_update_idempotent (h : Heap) (self : t) :
  _handle_coordinator_update h (exec (_handle_coordinator_update h) self)
  = _handle_coordinator_update h self.
Proof.
  destruct (prezzo_update_uniform h self) as (r & f & Hrun & Hshape).
  pose proof (Hrun self eq_refl) as Hself.
  unfold exec. rewrite Hself. cbn [fst snd].
  destruct Hshape as [(-> & b & v & n & ->)|[(-> & b & ->)|[-> ->]]];
    match goal with
    | |- _handle_coordinator_update h ?σ = _ => by rewrite (Hrun σ eq_refl)
    end.
Qed.

(** X8. When the handler returns, what the sensor then shows does not depend
    on what it showed before: two entities bound to the same coordinator end
    with the same availability, native value and friendly name. *)
Theorem PrezzoFasciaPUNSensorEntity_update_memoryless (h : Heap) (self other : t) :
  coordinator other = coordinator self →
  outcome (_handle_coordinator_update h) self = Ok tt →
  outcome (_handle_coordinator_update h) other = Ok tt
  ∧ available (exec (_handle_coordinator_update h) other)
    = available (exec (_handle_coordinator_update h) self)
  ∧ _native_value (exec (_handle_coordinator_update h) other)
    = _native_value (exec (_handle_coordinator_update h) self)
  ∧ name (exec (_handle_coordinator_update h) other)
    = name (exec (_handle_coordinator_update h) self).
Proof.
  intros Hc. destruct (prezzo_update_uniform h self) as (r & f & Hrun & Hshape).
  unfold outcome, exec. rewrite (Hrun self eq_refl), (Hrun other Hc). cbn [fst snd].
  destruct Hshape as [(-> & b & v & n & ->)|[(-> & b & ->)|[-> ->]]];
    by intros.
Qed.

End PrezzoFasciaFurther.

(** X5 on the faulty installation: coordinator 1 has one F1 sample and no
    value, coordinator 2 has no F1 samples at all. *)
Lemma PrezzoFasciaPUNSensorEntity_update_missing_entry_witness :
  let update :=
    PrezzoFasciaPUNSensorEntity._handle_coordinator_update
      (H := sample_declarations) faulty_heap in
  update (PrezzoFasciaPUNSensorEntity.__init__ 2%positive)
  = (Raise KeyError, PrezzoFasciaPUNSensorEntity.__init__ 2%positive, [])
  ∧ update (PrezzoFasciaPUNSensorEntity.__init__ 1%positive)
    = (Raise KeyError,
       PrezzoFasciaPUNSensorEntity.set_available true
         (PrezzoFasciaPUNSensorEntity.__init__ 1%positive), []).
Proof.
  intros update. split.
  - exact (proj1 (PrezzoFasciaPUNSensorEntity_update_missing_entry
                    (H := sample_declarations) faulty_heap
                    (PrezzoFasciaPUNSensorEntity.__init__ 2%positive) F1 eq_refl)
             eq_refl).
  - exact (proj1 (proj2 (PrezzoFasciaPUNSensorEntity_update_missing_entry
                           (H := sample_declarations) faulty_heap
                           (PrezzoFasciaPUNSensorEntity.__init__ 1%positive) F1
                           eq_refl)
                    [0.125%float] eq_refl eq_refl)).
Defined.

(** X8 on the sample installation: a fresh sensor and one that showed the F2
    price end alike. *)
Lemma PrezzoFasciaPUNSensorEntity_update_memoryless_witness :
  let update :=
    PrezzoFasciaPUNSensorEntity._handle_coordinator_update
      (H := sample_declarations) sample_heap in
  let fresh := PrezzoFasciaPUNSensorEntity.__init__ 1%positive in
  let used :=
    PrezzoFasciaPUNSensorEntity.set_friendly_name
      (VStr "Prezzo fascia corrente (F2)")
      (PrezzoFasciaPUNSensorEntity.set_native_value (VFloat 0.25)
         (PrezzoFasciaPUNSensorEntity.set_available true fresh)) in
  PrezzoFasciaPUNSensorEntity._native_value (exec update used)
  = PrezzoFasciaPUNSensorEntity._native_value (exec update fresh)
  ∧ PrezzoFasciaPUNSensorEntity.name (exec update used)
    = PrezzoFasciaPUNSensorEntity.name (exec update fresh).
Proof.
  intros update fresh used.
  destruct (PrezzoFasciaPUNSensorEntity_update_memoryless
              (H := sample_declarations) sample_heap fresh used eq_refl eq_refl)
    as (_ & _ & Hvalue & Hname).
  exact (conj Hvalue Hname).
Defined.

(** ** The three sensors of one coordinator, side by side *)

Section SideBySide.
Context `{!Declarations}.

(** X9. The price of the current band agrees with the sensor of that band.
    With the current band other than F23 and its samples and value held by
    the coordinator, after both are updated the two sensors are available
    together, and when they are they store the same native value. *)
Theorem price_of_current_band_agrees_with_band_sensor
    (h : Heap) (price : PrezzoFasciaPUNSensorEntity.t) (band : PUNSensorEntity.t)
    (fc : Fascia) (samples : list float) (v : float) :
  PUNSensorEntity.coordinator band = PrezzoFasciaPUNSensorEntity.coordinator price →
  fascia_corrente (h (PrezzoFasciaPUNSensorEntity.coordinator price)) = Some fc →
  PUNSensorEntity.fascia band = fc →
  fc ≠ F23 →
  pun (pun_data (h (PrezzoFasciaPUNSensorEntity.coordinator price))) !! fc
  = Some samples →
  value (pun_values (h (PrezzoFasciaPUNSensorEntity.coordinator price))) !! fc
  = Some v →
  let price' :=
    exec (PrezzoFasciaPUNSensorEntity._handle_coordinator_update h) price in
  let band' := exec (PUNSensorEntity._handle_coordinator_update h) band in
  PrezzoFasciaPUNSensorEntity.available price' = PUNSensorEntity.available band'
  ∧ (PUNSensorEntity.available band' = true →
     PrezzoFasciaPUNSensorEntity._native_value price'
     = PUNSensorEntity._native_value band').
Proof.
  intros Hc Hfc Hb Hne Hl Hv price' band'. subst price' band'. unfold exec.
  rewrite (prezzo_update_band h price fc samples v Hfc Hl Hv).
  rewrite <- Hc, <- Hb in Hl, Hv. rewrite <- Hb in Hne.
  destruct samples as [|x l].
  - by rewrite (update_band_empty h band Hne Hl).
  - by rewrite (update_band_data h band x l v Hne Hl Hv).
Qed.

(** X10. The price sensor follows the band sensor of the same coordinator:
    whenever its handler returns, its friendly name is the default one
    followed by the band sensor's native value in parentheses, or the bare
    default one (the sensor then being unavailable) when the band sensor has
    no value; and a run always leaves the price sensor unavailable when the
    band sensor is unavailable. *)
Theorem price_sensor_follows_band_name
    (h : Heap) (price : PrezzoFasciaPUNSensorEntity.t)
    (current : FasciaPUNSensorEntity.t) :
  FasciaPUNSensorEntity.coordinator current
  = PrezzoFasciaPUNSensorEntity.coordinator price →
  let price' :=
    exec (PrezzoFasciaPUNSensorEntity._handle_coordinator_update h) price in
  (outcome (PrezzoFasciaPUNSensorEntity._handle_coordinator_update h) price = Ok tt →
   match FasciaPUNSensorEntity.native_value h current with
   | Some band =>
       PrezzoFasciaPUNSensorEntity.name price'
       = VStr ("Prezzo fascia corrente (" ++ band ++ ")")
   | None =>
       PrezzoFasciaPUNSensorEntity.name price' = VStr "Prezzo fascia corrente"
       ∧ PrezzoFasciaPUNSensorEntity.available price' = false
   end)
  ∧ (FasciaPUNSensorEntity.available h current = false →
     PrezzoFasciaPUNSensorEntity.available price' = false).
Proof.
  intros Hc price'. subst price'.
  unfold outcome, exec, FasciaPUNSensorEntity.native_value,
    FasciaPUNSensorEntity.available.
  rewrite Hc.
  destruct (fascia_corrente (h (PrezzoFasciaPUNSensorEntity.coordinator price)))
    as [fc|] eqn:Hfc.
  - split; [|done]. cbn [Fascia_bool negb].
    destruct (pun (pun_data (h (PrezzoFasciaPUNSensorEntity.coordinator price))) !! fc)
      as [samples|] eqn:Hl.
    + destruct (value (pun_values (h (PrezzoFasciaPUNSensorEntity.coordinator price)))
                  !! fc) as [v|] eqn:Hv.
      * by rewrite (prezzo_update_band h price fc samples v Hfc Hl Hv).
      * by rewrite (prezzo_update_band_no_value h price fc samples Hfc Hl Hv).
    + by rewrite (prezzo_update_no_key h price fc Hfc Hl).
  - by rewrite (prezzo_update_no_band h price Hfc).
Qed.

End SideBySide.

(** X9 on the sample installation: the price sensor and the F1 sensor both
    end available with 0.125. *)
Lemma price_of_current_band_agrees_with_band_sensor_witness :
  let price' :=
    exec (PrezzoFasciaPUNSensorEntity._handle_coordinator_update
            (H := sample_declarations) sample_heap)
      (PrezzoFasciaPUNSensorEntity.__init__ 1%positive) in
  let band' :=
    exec (PUNSensorEntity._handle_coordinator_update sample_heap)
      (PUNSensorEntity.__init__ 1%positive F1) in
  PrezzoFasciaPUNSensorEntity.available price' = PUNSensorEntity.available band'
  ∧ PrezzoFasciaPUNSensorEntity._native_value price'
    = PUNSensorEntity._native_value band'.
Proof.
  intros price' band'.
  destruct (price_of_current_band_agrees_with_band_sensor
              (H := sample_declarations) sample_heap
              (PrezzoFasciaPUNSensorEntity.__init__ 1%positive)
              (PUNSensorEntity.__init__ 1%positive F1) F1 [0.125%float]
              0.125%float eq_refl eq_refl eq_refl ltac:(discriminate)
              eq_refl eq_refl) as [Havailable Hvalue].
  exact (conj Havailable (Hvalue eq_refl)).
Defined.

(** X10 on the sample installation: the band sensor shows F1 and the price
    sensor is named after it. *)
Lemma price_sensor_follows_band_name_witness :
  PrezzoFasciaPUNSensorEntity.name
    (exec (PrezzoFasciaPUNSensorEntity._handle_coordinator_update
             (H := sample_declarations) sample_heap)
       (PrezzoFasciaPUNSensorEntity.__init__ 1%positive))
  = VStr "Prezzo fascia corrente (F1)".
Proof.
  exact (proj1 (price_sensor_follows_band_name (H := sample_declarations)
                  sample_heap (PrezzoFasciaPUNSensorEntity.__init__ 1%positive)
                  (FasciaPUNSensorEntity.__init__ 1%positive) eq_refl)
           eq_refl).
Defined.

(** ** Restoring, in general and before an update *)

(** The entry of restored data under a key, [None] when there are no data. *)
Local Abbreviation restored_entry d key :=
  (match d with Some old => dict_get (as_dict old) key | None => None end).

Section RestoreFurther.

Lemma pun_restore_run (d : option RestoredExtraData) (target : PUNSensorEntity.t) :
  PUNSensorEntity.async_added_to_hass d target
  = (Ok tt,
     match restored_entry d "native_value" with
     | Some v =>
         PUNSensorEntity.set_native_value v
           (PUNSensorEntity.set_available true target)
     | None => target
     end, []).
Proof.
  unfold PUNSensorEntity.async_added_to_hass.
  destruct d as [old|]; [|done].
  by destruct (dict_get (as_dict old) "native_value").
Qed.

Lemma prezzo_restore_run (d : option RestoredExtraData)
    (target : PrezzoFasciaPUNSensorEntity.t) :
  PrezzoFasciaPUNSensorEntity.async_added_to_hass d target
  = (Ok tt,
     let valued :=
       match restored_entry d "native_value" with
       | Some v =>
           PrezzoFasciaPUNSensorEntity.set_native_value v
             (PrezzoFasciaPUNSensorEntity.set_available true target)
       | None => target
       end in
     match restored_entry d "friendly_name" with
     | Some n => PrezzoFasciaPUNSensorEntity.set_friendly_name n valued
     | None => valued
     end, []).
Proof.
  unfold PrezzoFasciaPUNSensorEntity.async_added_to_hass.
  destruct d as [old|]; [|done].
  by destruct (dict_get (as_dict old) "native_value"),
       (dict_get (as_dict old) "friendly_name").
Qed.

(** X11. Restoring never raises, never publishes and never makes an
    available entity unavailable, whatever data the host hands over (none,
    an empty dictionary, entries of any kind).  Each key is restored on its
    own: the native value is the restored one when it is not [None] and the
    entity's own otherwise, and so is the friendly name of the price sensor,
    which is restored even when the native value is not; the entity is
    available afterwards exactly when it was before or a native value was
    restored. *)
Theorem restore_total_and_keywise :
  (∀ (d : option RestoredExtraData) (target : PUNSensorEntity.t),
     let restored := exec (PUNSensorEntity.async_added_to_hass d) target in
     outcome (PUNSensorEntity.async_added_to_hass d) target = Ok tt
     ∧ calls (PUNSensorEntity.async_added_to_hass d) target = []
     ∧ PUNSensorEntity._native_value restored
       = default (PUNSensorEntity._native_value target)
           (restored_entry d "native_value")
     ∧ PUNSensorEntity.available restored
       = PUNSensorEntity.available target
         || bool_decide (is_Some (restored_entry d "native_value"))
     ∧ PUNSensorEntity.coordinator restored = PUNSensorEntity.coordinator target
     ∧ PUNSensorEntity.fascia restored = PUNSensorEntity.fascia target)
  ∧ (∀ (d : option RestoredExtraData) (target : PrezzoFasciaPUNSensorEntity.t),
       let restored :=
         exec (PrezzoFasciaPUNSensorEntity.async_added_to_hass d) target in
       outcome (PrezzoFasciaPUNSensorEntity.async_added_to_hass d) target = Ok tt
       ∧ calls (PrezzoFasciaPUNSensorEntity.async_added_to_hass d) target = []
       ∧ PrezzoFasciaPUNSensorEntity._native_value restored
         = default (PrezzoFasciaPUNSensorEntity._native_value target)
             (restored_entry d "native_value")
       ∧ PrezzoFasciaPUNSensorEntity.name restored
         = default (PrezzoFasciaPUNSensorEntity.name target)
             (restored_entry d "friendly_name")
       ∧ PrezzoFasciaPUNSensorEntity.available restored
         = PrezzoFasciaPUNSensorEntity.available target
           || bool_decide (is_Some (restored_entry d "native_value"))
       ∧ PrezzoFasciaPUNSensorEntity.coordinator restored
         = PrezzoFasciaPUNSensorEntity.coordinator target).
Proof.
  split; intros d target restored; subst restored; unfold outcome, exec, calls.
  - rewrite pun_restore_run. cbn [fst snd].
    destruct (restored_entry d "native_value") as [v|]; cbn.
    + by rewrite orb_true_r.
    + by rewrite orb_false_r.
  - rewrite prezzo_restore_run. cbn [fst snd].
    destruct (restored_entry d "native_value") as [v|],
      (restored_entry d "friendly_name") as [n|]; cbn;
      by rewrite ?orb_true_r, ?orb_false_r.
Qed.

(** X12. Saving is stable under a restore: an entity restored from the data
    an available sensor saved saves the same data again, whatever it held
    before the restore. *)
Theorem save_restore_save :
  (∀ saved target : PUNSensorEntity.t,
     PUNSensorEntity.available saved = true →
     PUNSensorEntity.extra_restore_state_data
       (exec (PUNSensorEntity.async_added_to_hass
                (Some (PUNSensorEntity.extra_restore_state_data saved))) target)
     = PUNSensorEntity.extra_restore_state_data saved)
  ∧ (∀ saved target : PrezzoFasciaPUNSensorEntity.t,
       PrezzoFasciaPUNSensorEntity.available saved = true →
       PrezzoFasciaPUNSensorEntity.extra_restore_state_data
         (exec (PrezzoFasciaPUNSensorEntity.async_added_to_hass
                  (Some (PrezzoFasciaPUNSensorEntity.extra_restore_state_data saved)))
            target)
       = PrezzoFasciaPUNSensorEntity.extra_restore_state_data saved).
Proof.
  split; intros saved target Hav; unfold exec.
  - rewrite pun_restore_run, pun_saved_entry.
    unfold PUNSensorEntity.available in Hav. rewrite Hav. cbn [fst snd].
    unfold PUNSensorEntity.extra_restore_state_data. cbn. by rewrite Hav.
  - rewrite prezzo_restore_run, prezzo_saved_native_value,
      prezzo_saved_friendly_name.
    unfold PrezzoFasciaPUNSensorEntity.available in Hav. rewrite Hav. cbn [fst snd].
    unfold PrezzoFasciaPUNSensorEntity.extra_restore_state_data. cbn.
    by rewrite Hav.
Qed.

(** X13. A restored value is a placeholder until the first update finds
    data.  For a [PUNSensorEntity] restored from any data and then updated,
    the update ending as it does without the restore: availability is the one
    the update gives without the restore; when that is available, the whole
    state is; when it is unavailable, the sensor still holds what the restore
    left. *)
Theorem PUNSensorEntity_update_after_restore
    (h : Heap) (d : option RestoredExtraData) (target : PUNSensorEntity.t) :
  let update := PUNSensorEntity._handle_coordinator_update h in
  let restored := exec (PUNSensorEntity.async_added_to_hass d) target in
  outcome update target = Ok tt →
  outcome update restored = Ok tt
  ∧ PUNSensorEntity.available (exec update restored)
    = PUNSensorEntity.available (exec update target)
  ∧ (PUNSensorEntity.available (exec update target) = true →
     exec update restored = exec update target)
  ∧ (PUNSensorEntity.available (exec update target) = false →
     PUNSensorEntity._native_value (exec update restored)
     = PUNSensorEntity._native_value restored).
Proof.
  intros update restored. subst update restored.
  destruct (update_uniform h target) as (r & f & Hrun & Hshape).
  unfold outcome, exec. rewrite pun_restore_run. cbn [fst snd].
  rewrite (Hrun target eq_refl eq_refl).
  rewrite Hrun by (by destruct (restored_entry d "native_value")).
  cbn [fst snd].
  destruct Hshape as [[-> ->]|[(-> & v & Hv & ->)|[[-> ->]|[-> ->]]]];
    intros Hok; try discriminate Hok;
    destruct (restored_entry d "native_value"); by cbn.
Qed.

End RestoreFurther.

(** X12 on the sample installation: the F1 sensor after an update, saved,
    restored into a fresh entity and saved again. *)
Lemma save_restore_save_witness :
  let saved :=
    exec (PUNSensorEntity._handle_coordinator_update sample_heap)
      (PUNSensorEntity.__init__ 1%positive F1) in
  PUNSensorEntity.extra_restore_state_data
    (exec (PUNSensorEntity.async_added_to_hass
             (Some (PUNSensorEntity.extra_restore_state_data saved)))
       (PUNSensorEntity.__init__ 1%positive F1))
  = PUNSensorEntity.extra_restore_state_data saved.
Proof.
  intros saved.
  exact (proj1 save_restore_save saved (PUNSensorEntity.__init__ 1%positive F1)
           eq_refl).
Defined.

(** X13 on the sample installation: an F3 sensor restored with 0.5 stays
    unavailable after the update, the F3 list being empty, and keeps 0.5. *)
Lemma PUNSensorEntity_update_after_restore_witness :
  let data := {| as_dict := {[ "native_value" := Some (VFloat 0.5) ]} |} in
  let restored :=
    exec (PUNSensorEntity.async_added_to_hass (Some data))
      (PUNSensorEntity.__init__ 1%positive F3) in
  PUNSensorEntity.available
    (exec (PUNSensorEntity._handle_coordinator_update sample_heap) restored) = false
  ∧ PUNSensorEntity._native_value
      (exec (PUNSensorEntity._handle_coordinator_update sample_heap) restored)
    = VFloat 0.5.
Proof.
  intros data restored.
  destruct (PUNSensorEntity_update_after_restore sample_heap (Some data)
              (PUNSensorEntity.__init__ 1%positive F3) eq_refl)
    as (_ & Havailable & _ & Hvalue).
  exact (conj Havailable (Hvalue eq_refl)).
Defined.

(** ** Set-up: failure, and the ids of what it registers *)

Section SetupFurther.
Context `{!Declarations}.

Lemma async_setup_entry_run hass config settings by_domain c :
  data hass !! DOMAIN = Some by_domain →
  by_domain !! entry_id config = Some c →
  async_setup_entry hass config settings
  = (Ok tt,
     {| has_suggested_display_precision :=
          AwesomeVersion_ge HA_VERSION "2023.3.0" |},
     [async_add_entities
        (map (λ fascia, PUNSensor (PUNSensorEntity.__init__ c fascia))
           PunValues_keys
         ++ [FasciaPUNSensor (FasciaPUNSensorEntity.__init__ c);
             PrezzoFasciaPUNSensor (PrezzoFasciaPUNSensorEntity.__init__ c)])
        false]).
Proof.
  intros Hdomain Hentry. unfold async_setup_entry.
  rewrite (bind_getitem_Some _ _ _ _ _ Hdomain).
  rewrite (bind_getitem_Some _ _ _ _ _ Hentry).
  rewrite bind_modify. cbn [app]. by rewrite <- (assoc_L (++)).
Qed.

(** X14. Set-up returns exactly when [hass.data] holds a coordinator under
    [DOMAIN] and the id of the config entry, and then leaves the global flag
    set to the outcome of the version test, whatever it was.  Otherwise it
    raises [KeyError] before anything else happens: the flag is left as it
    was and no entity is given to the host. *)
Theorem async_setup_entry_needs_coordinator
    (hass : HomeAssistant) (config : ConfigEntry) (settings : CommonSettings) :
  match data hass !! DOMAIN ≫= (λ by_domain, by_domain !! entry_id config) with
  | Some c =>
      outcome (async_setup_entry hass config) settings = Ok tt
      ∧ has_suggested_display_precision
          (exec (async_setup_entry hass config) settings)
        = AwesomeVersion_ge HA_VERSION "2023.3.0"
      ∧ length (calls (async_setup_entry hass config) settings) = 1
  | None =>
      async_setup_entry hass config settings = (Raise KeyError, settings, [])
  end.
Proof.
  destruct (data hass !! DOMAIN) as [by_domain|] eqn:Hdomain; cbn.
  - destruct (by_domain !! entry_id config) as [c|] eqn:Hentry.
    + unfold outcome, exec, calls.
      by rewrite (async_setup_entry_run _ _ _ _ _ Hdomain Hentry).
    + unfold async_setup_entry.
      rewrite (bind_getitem_Some _ _ _ _ _ Hdomain).
      by rewrite (bind_getitem_None _ _ _ _ Hentry).
  - unfold async_setup_entry. by rewrite (bind_getitem_None _ _ _ _ Hdomain).
Qed.

Lemma PUNSensor_unique_id_inj (c : ref) :
  Inj (=) (=) (λ fascia,
    entity_unique_id (PUNSensor (PUNSensorEntity.__init__ c fascia))).
Proof. intros [] [] Hid; (reflexivity || discriminate Hid). Qed.

(** X15. The entities set-up gives to the host all carry a unique id, and
    no two of them the same one; they all start unavailable but the band
    sensor, whose availability is the coordinator's. *)
Theorem async_setup_entry_unique_ids
    (hass : HomeAssistant) (config : ConfigEntry) (settings : CommonSettings)
    (by_domain : gmap string ref) (c : ref) :
  data hass !! DOMAIN = Some by_domain →
  by_domain !! entry_id config = Some c →
  ∃ entities : list SensorEntity,
    calls (async_setup_entry hass config) settings
    = [async_add_entities entities false]
    ∧ Forall (λ e, is_Some (entity_unique_id e)) entities
    ∧ NoDup (entity_unique_id <$> entities)
    ∧ Forall (λ e, match e with
                   | PUNSensor e => PUNSensorEntity.available e = false
                   | PrezzoFasciaPUNSensor e =>
                       PrezzoFasciaPUNSensorEntity.available e = false
                   | FasciaPUNSensor _ => True
                   end) entities.
Proof.
  intros Hdomain Hentry. eexists. unfold calls.
  rewrite (async_setup_entry_run _ _ _ _ _ Hdomain Hentry). cbn [snd].
  split; [reflexivity|]. split; [|split].
  - apply Forall_app. split; [|by repeat constructor].
    apply Forall_forall. intros e He.
    apply list_elem_of_fmap in He as (f & -> & _). by destruct f.
  - rewrite fmap_app. apply NoDup_app. split; [|split].
    + rewrite <- list_fmap_compose.
      apply NoDup_fmap_2_strong; [|apply PunValues_keys_NoDup].
      intros f1 f2 _ _. apply (PUNSensor_unique_id_inj c).
    + intros id Hid Hother.
      rewrite <- list_fmap_compose in Hid.
      apply list_elem_of_fmap in Hid as (f & -> & _).
      cbn in Hother. rewrite !elem_of_cons in Hother.
      destruct Hother as [Habs|[Habs|Habs]];
        [destruct f; discriminate Habs..|by apply not_elem_of_nil in Habs].
    + cbn. apply NoDup_cons. split; [|apply NoDup_singleton].
      rewrite list_elem_of_singleton. discriminate.
  - apply Forall_app. split; [|by repeat constructor].
    apply Forall_forall. intros e He.
    by apply list_elem_of_fmap in He as (f & -> & _).
Qed.

End SetupFurther.

(** ** The band sensor and its options *)

Section BandSensorOptions.
Context `{!Declarations}.


End BandSensorOptions.

(** X15 on the sample installation: seven entities with seven different
    ids. *)
Lemma async_setup_entry_unique_ids_witness :
  ∃ entities : list SensorEntity,
    calls (async_setup_entry (H := sample_declarations) sample_hass sample_config)
      {| has_suggested_display_precision := false |}
    = [async_add_entities entities false]
    ∧ NoDup (entity_unique_id <$> entities).
Proof.
  destruct (async_setup_entry_unique_ids (H := sample_declarations)
              sample_hass sample_config
              {| has_suggested_display_precision := false |}
              {[ "entry-1" := 1%positive ]} 1%positive eq_refl eq_refl)
    as (entities & Hcalls & _ & Hids & _).
  exists entities. exact (conj Hcalls Hids).
Defined.


(** ** F23 beside F2 and F3 *)

Section F23BesideF2F3.
Import PUNSensorEntity.

Lemma update_band_available_bool (h : Heap) (self : t) (samples : list float) :
  fascia self ≠ F23 →
  pun (pun_data (h (coordinator self))) !! fascia self = Some samples →
  available (exec (_handle_coordinator_update h) self)
  = if samples is [] then false else true.
Proof.
  intros Hf Hl. unfold exec. destruct samples as [|x l].
  - by rewrite (update_band_empty h self Hf Hl).
  - destruct (value (pun_values (h (coordinator self))) !! fascia self)
      as [v|] eqn:Hv.
    + by rewrite (update_band_data h self x l v Hf Hl Hv).
    + by rewrite (update_band_data_no_value h self x l Hf Hl Hv).
Qed.

Lemma update_F23_available_bool (h : Heap) (self : t) (l2 l3 : list float) :
  fascia self = F23 →
  pun (pun_data (h (coordinator self))) !! F2 = Some l2 →
  pun (pun_data (h (coordinator self))) !! F3 = Some l3 →
  available (exec (_handle_coordinator_update h) self)
  = (if l2 is [] then false else true) && (if l3 is [] then false else true).
Proof.
  intros Hf H2 H3. unfold exec. destruct l2 as [|x2 l2].
  { by rewrite (update_F23_no_F2 h self Hf H2). }
  destruct l3 as [|x3 l3].
  { by rewrite (update_F23_no_F3 h self x2 l2 Hf H2 H3). }
  destruct (value (pun_values (h (coordinator self))) !! F23) as [v|] eqn:Hv.
  - by rewrite (update_F23_data h self x2 l2 x3 l3 v Hf H2 H3 Hv).
  - by rewrite (update_F23_data_no_value h self x2 l2 x3 l3 Hf H2 H3 Hv).
Qed.

(** X17. The F23 sensor is available exactly when the F2 and the F3 sensors
    of the same coordinator both are: with the F2 and F3 sample lists held by
    the coordinator, after the three sensors are updated the availability of
    the F23 one is the conjunction of the other two, whether the runs return
    or raise on a missing value. *)
Theorem F23_available_iff_F2_and_F3_available
    (h : Heap) (s2 s3 s23 : t) (l2 l3 : list float) :
  fascia s2 = F2 → fascia s3 = F3 → fascia s23 = F23 →
  coordinator s2 = coordinator s23 → coordinator s3 = coordinator s23 →
  pun (pun_data (h (coordinator s23))) !! F2 = Some l2 →
  pun (pun_data (h (coordinator s23))) !! F3 = Some l3 →
  available (exec (_handle_coordinator_update h) s23)
  = available (exec (_handle_coordinator_update h) s2)
    && available (exec (_handle_coordinator_update h) s3).
Proof.
  intros Hf2 Hf3 Hf23 Hc2 Hc3 H2 H3.
  rewrite (update_F23_available_bool h s23 l2 l3 Hf23 H2 H3).
  rewrite (update_band_available_bool h s2 l2), (update_band_available_bool h s3 l3);
    rewrite ?Hf2, ?Hf3, ?Hc2, ?Hc3; done.
Qed.

End F23BesideF2F3.

(** X17 on the sample installation: F2 has samples and F3 has none, so the
    F2 sensor is available and neither the F3 nor the F23 sensor is. *)
Lemma F23_available_iff_F2_and_F3_available_witness :
  let update := PUNSensorEntity._handle_coordinator_update sample_heap in
  PUNSensorEntity.available (exec update (PUNSensorEntity.__init__ 1%positive F23))
  = PUNSensorEntity.available (exec update (PUNSensorEntity.__init__ 1%positive F2))
    && PUNSensorEntity.available
         (exec update (PUNSensorEntity.__init__ 1%positive F3)).
Proof.
  intros update.
  exact (F23_available_iff_F2_and_F3_available sample_heap
           (PUNSensorEntity.__init__ 1%positive F2)
           (PUNSensorEntity.__init__ 1%positive F3)
           (PUNSensorEntity.__init__ 1%positive F23)
           [0.25%float] [] eq_refl eq_refl eq_refl eq_refl eq_refl eq_refl eq_refl).
Defined.
